(** * Paridades e arbitragens: the nine parity calculators

    Shallow embedding of the calculation engine of
    [app_paridade_produtos.py]: the module constants and the nine
    [calc_*] functions, each a [try]/[except] block around a chain of
    scalar conversions that fills a [values] dict and an [errors] list.

    The calculators are written once, over an abstract number type
    [A] with the operations Python applies to its scalars.  Two
    instances interpret them:

    - [float_num]: IEEE-754 binary64, the arithmetic CPython's [float]
      executes (round to nearest even, correctly rounded decimal
      literals);
    - [real_num]: exact real arithmetic, the arithmetic the formulas
      in the comments of the source denote.

    Results that hold of the code as written are proved for every
    instance; statements about concrete numbers are evaluated in
    binary64; algebraic identities are proved over the reals.

    Parameters are scalars of type [A].  The [int] literals of the
    source ([0] and [1] as defaults of [dict.get], [20], [100], [15],
    [240], [1000]) enter through [of_int]: Python converts them
    exactly when they meet a [float], and compares them with [float]s
    by value.

    A statement of the source can fail in one way only on such
    scalars, a division by zero; the [try]/[except] frame, the early
    [return] of the validation and the two locals [values] and
    [errors] are modelled by a small state-and-exception monad. *)

From Stdlib Require Import ZArith Floats Reals Lra Lia.
From Stdlib Require Ascii DecimalString.
From stdpp Require Import base option list strings gmap sorting.

Local Open Scope string_scope.

(** ** Scalars *)

(** The operations the calculators apply to their scalars.  [of_int]
    is Python's conversion of a (small) [int] to the scalar type;
    [fdiv] is the quotient itself, without Python's zero check (see
    [py_div] below). *)
Class PyNum (A : Type) := {
  of_int : Z -> A;
  fadd : A -> A -> A;
  fsub : A -> A -> A;
  fmul : A -> A -> A;
  fdiv : A -> A -> A;
  feqb : A -> A -> bool;
  fltb : A -> A -> bool;
  fleb : A -> A -> bool;
}.

Declare Scope py_scope.
Delimit Scope py_scope with py.
Infix "+" := fadd : py_scope.
Infix "-" := fsub : py_scope.
Infix "*" := fmul : py_scope.
Infix "/" := fdiv : py_scope.
Infix "==?" := feqb (at level 70, no associativity) : py_scope.
Infix "<?" := fltb : py_scope.
Infix "<=?" := fleb : py_scope.
Notation "x >? y" := (fltb y x) (only parsing) : py_scope.

(** A decimal literal [m] followed by [k] fractional digits, as in
    [22.0462 = dec 220462 4].  Both [m] and [10^k] are exactly
    representable in every instance used here, so in binary64 the
    quotient is the correctly rounded value of the literal, which is
    what Python's parser produces. *)
Definition dec `{PyNum A} (m : Z) (k : nat) : A :=
  (of_int m / of_int (10 ^ Z.of_nat k))%py.

(** *** binary64 *)

(** Conversion of an integer below [2^63] in magnitude. *)
Definition float_of_int (z : Z) : float :=
  match z with
  | Z0 => PrimFloat.zero
  | Zpos _ => PrimFloat.of_uint63 (Uint63.of_Z z)
  | Zneg p => PrimFloat.opp (PrimFloat.of_uint63 (Uint63.of_Z (Zpos p)))
  end.

#[export] Instance float_num : PyNum float := {|
  of_int := float_of_int;
  fadd := PrimFloat.add;
  fsub := PrimFloat.sub;
  fmul := PrimFloat.mul;
  fdiv := PrimFloat.div;
  feqb := PrimFloat.eqb;
  fltb := PrimFloat.ltb;
  fleb := PrimFloat.leb;
|}.

(** *** exact reals *)

Definition Reqb (x y : R) : bool := if Req_dec_T x y then true else false.
Definition Rltb (x y : R) : bool := if Rlt_dec x y then true else false.
Definition Rleb (x y : R) : bool := if Rle_dec x y then true else false.

#[export] Instance real_num : PyNum R := {|
  of_int := IZR;
  fadd := Rplus;
  fsub := Rminus;
  fmul := Rmult;
  fdiv := Rdiv;
  feqb := Reqb;
  fltb := Rltb;
  fleb := Rleb;
|}.

(** ** Python values, dicts and the result record *)

(** What a [values] dict holds: a scalar, a string (the descriptions
    and formulas of the step-by-step breakdown) or a nested dict, kept
    in insertion order. *)
#[warnings="-register-all"]
Inductive pyval (A : Type) : Type :=
  | PyNum_ (x : A)
  | PyStr (s : string)
  | PyDict (d : list (string * pyval A)).
Arguments PyNum_ {A} x.
Arguments PyStr {A} s.
Arguments PyDict {A} d.

(** The record every calculator returns:
    [{'values': values, 'errors': errors}]. *)
Record Result (A : Type) : Type := mkResult {
  values : gmap string (pyval A);
  errors : list string;
}.
Arguments mkResult {A} values errors.
Arguments values {A} r.
Arguments errors {A} r.

(** [d.get(key, default)] on a parameter dict. *)
Definition get {A} (d : gmap string A) (key : string) (dflt : A) : A :=
  default dflt (d !! key).

(** ** Control: local state, exceptions and early return *)

Inductive exn : Type := ZeroDivisionError.

Definition str_exn (e : exn) : string :=
  match e with ZeroDivisionError => "float division by zero" end.

(** How a block of statements ends: it runs to its end, raises, or
    executes [return {'values': values, 'errors': errors}]. *)
Inductive outcome (X : Type) : Type :=
  | Normal (x : X)
  | Raised (e : exn)
  | Returned.
Arguments Normal {X} x.
Arguments Raised {X} e.
Arguments Returned {X}.

(** A statement acts on the two locals [values] and [errors]. *)
Definition M (A X : Type) : Type := Result A -> Result A * outcome X.

Definition ret {A X} (x : X) : M A X := fun st => (st, Normal x).

Definition bind {A X Y} (c : M A X) (k : X -> M A Y) : M A Y :=
  fun st =>
    match c st with
    | (st', Normal x) => k x st'
    | (st', Raised e) => (st', Raised e)
    | (st', Returned) => (st', Returned)
    end.

Notation "'let*' x := c 'in' k" := (bind c (fun x => k))
  (at level 10, x name, c at level 100, k at level 200).
Notation "c ;; k" := (bind c (fun _ => k))
  (at level 100, k at level 200, right associativity).

Definition raise {A X} (e : exn) : M A X := fun st => (st, Raised e).

(** [return {'values': values, 'errors': errors}] *)
Definition return_record {A X} : M A X := fun st => (st, Returned).

(** [errors.append(msg)] *)
Definition errors_append {A} (msg : string) : M A unit :=
  fun st => (mkResult (values st) (errors st ++ [msg]), Normal tt).

(** [values[key] = v] *)
Definition values_set {A} (key : string) (v : pyval A) : M A unit :=
  fun st => (mkResult (<[key := v]> (values st)) (errors st), Normal tt).

(** [if b: body] *)
Definition when {A} (b : bool) (body : M A unit) : M A unit :=
  if b then body else ret tt.

(** Python's [x / y]: raises [ZeroDivisionError] when [y == 0]. *)
Definition py_div `{PyNum A} (x y : A) : M A A :=
  if (y ==? of_int 0)%py then raise ZeroDivisionError else ret (x / y)%py.
Infix "//" := py_div (at level 40, left associativity).

(** The function frame: [errors = []], [values = {}], then
    [try: body / except Exception as e: errors.append(f"{label}: {str(e)}")]
    and the final [return {'values': values, 'errors': errors}]. *)
Definition try_except {A} (body : M A unit) (label : string) : Result A :=
  match body (mkResult ∅ []) with
  | (st, Normal _) => st
  | (st, Returned) => st
  | (st, Raised e) =>
      mkResult (values st) (errors st ++ [label +:+ ": " +:+ str_exn e])
  end.

(** ** Constants *)

Section Calculators.
Context {A : Type} `{PyNum A}.
Local Open Scope py_scope.

Definition FATOR_CONVERSAO_CENTS_LB_PARA_TON : A := dec 220462 4.
Definition SACAS_POR_TON : A := of_int 20.
Definition FATOR_ETANOL_ANIDRO_LITROS_POR_SACA : A := dec 32669 3.
Definition FATOR_ETANOL_HIDRATADO_LITROS_POR_SACA : A := dec 31304 3.
Definition FATOR_ETANOL_ANIDRO_MI_LITROS_POR_SACA : A := dec 33712 3.
Definition FATOR_ETANOL_HIDRATADO_MI_LITROS_POR_SACA : A := dec 31504 3.
Definition FATOR_CONVERSAO_HIDRATADO : A := dec 769 4.
Definition FATOR_CBIO_FC_ANIDRO : A := dec 7124 1.
Definition FATOR_CBIO_FC_HIDRATADO : A := dec 74975 2.
Definition CREDITO_TRIBUTARIO : A := of_int 240.
Definition FATOR_AJUSTE_ETANOL : A := dec 1042 3.

(** The literal [22.04622] that four calculators spell out instead of
    the module constant. *)
Definition lit_22_04622 : A := dec 2204622 5.

Definition cambio_msg : string := "Câmbio deve ser maior que zero".

(** The conditional expression [v / 100 if v > 1 else v] applied to
    every percentage parameter. *)
Definition percentual (v : A) : M A A :=
  if v >? of_int 1 then v // of_int 100 else ret v.

(** The validation every calculator starts with. *)
Definition valida_cambio (cambio_brl_usd : A) : M A unit :=
  when (cambio_brl_usd <=? of_int 0)
    (errors_append cambio_msg ;; return_record).

(** Helpers to write the dict literals of [desenvolvimento]. *)
Definition num (key : string) (x : A) : string * pyval A := (key, PyNum_ x).
Definition str (key s : string) : string * pyval A := (key, PyStr s).

(** ** Açúcar VHP *)

Definition calc_acucar_vhp_detalhado_body (inputs globais : gmap string A)
  : M A unit :=
  let acucar_ny_cents_lb := get inputs "acucar_ny_cents_lb" (of_int 0) in
  let premio_desconto := get inputs "premio_desconto" (of_int 0) in
  let premio_pol := get inputs "premio_pol" (of_int 0) in
  let custo_terminal_usd_ton := get inputs "custo_terminal_usd_ton" (of_int 0) in
  let frete_brl_ton := get inputs "frete_brl_ton" (of_int 0) in
  let cambio_brl_usd := get globais "cambio_brl_usd" (of_int 1) in
  valida_cambio cambio_brl_usd ;;
  (* PASSO 1 *)
  let* premio_pol_percentual := percentual premio_pol in
  let sugar_ny_mais_pol_cents_lb :=
    (acucar_ny_cents_lb + premio_desconto) * (of_int 1 + premio_pol_percentual) in
  let passo1 := PyDict [
    str "descricao" "Cálculo Sugar NY + Pol";
    str "formula" "(Açúcar NY + Prêmio/Desconto) × (1 + Prêmio Pol%)";
    ("valores", PyDict [
      num "acucar_ny_cents_lb" acucar_ny_cents_lb;
      num "premio_desconto_cents_lb" premio_desconto;
      num "premio_pol_percentual" premio_pol_percentual;
      num "soma_ny_premio" (acucar_ny_cents_lb + premio_desconto);
      num "fator_pol" (of_int 1 + premio_pol_percentual);
      num "resultado_cents_lb" sugar_ny_mais_pol_cents_lb ]) ] in
  (* PASSO 2 *)
  let sugar_ny_mais_pol_usd_ton :=
    sugar_ny_mais_pol_cents_lb * FATOR_CONVERSAO_CENTS_LB_PARA_TON in
  let* frete_usd_ton := frete_brl_ton // cambio_brl_usd in
  let valor_usd_ton :=
    sugar_ny_mais_pol_usd_ton - custo_terminal_usd_ton - frete_usd_ton in
  let* valor_usd_saca := valor_usd_ton // SACAS_POR_TON in
  let equivalente_vhp_reais_saca_pvu := valor_usd_saca * cambio_brl_usd in
  let passo2 := PyDict [
    str "descricao" "Cálculo Equivalente VHP Reais/saca PVU";
    str "formula" "(((Sugar NY+pol × 22.0462) - Custo Terminal - (Frete BRL/ton ÷ Câmbio)) ÷ 20) × Câmbio";
    ("valores", PyDict [
      num "sugar_ny_mais_pol_cents_lb" sugar_ny_mais_pol_cents_lb;
      num "fator_conversao" FATOR_CONVERSAO_CENTS_LB_PARA_TON;
      num "sugar_ny_mais_pol_usd_ton" sugar_ny_mais_pol_usd_ton;
      num "custo_terminal_usd_ton" custo_terminal_usd_ton;
      num "frete_brl_ton" frete_brl_ton;
      num "cambio_brl_usd" cambio_brl_usd;
      num "frete_usd_ton" frete_usd_ton;
      num "valor_usd_ton" valor_usd_ton;
      num "sacas_por_ton" SACAS_POR_TON;
      num "valor_usd_saca" valor_usd_saca;
      num "resultado_brl_saca" equivalente_vhp_reais_saca_pvu ]) ] in
  (* PASSO 3 *)
  let* t := (equivalente_vhp_reais_saca_pvu * SACAS_POR_TON)
              // FATOR_CONVERSAO_CENTS_LB_PARA_TON in
  let* equivalente_vhp_cents_lb_pvu := t // cambio_brl_usd in
  let passo3 := PyDict [
    str "descricao" "Cálculo Equivalente VHP c/lb PVU";
    str "formula" "((Equivalente VHP Reais/saca PVU × 20) ÷ 22.0462) ÷ Câmbio";
    ("valores", PyDict [
      num "equivalente_vhp_reais_saca_pvu" equivalente_vhp_reais_saca_pvu;
      num "sacas_por_ton" SACAS_POR_TON;
      num "fator_conversao" FATOR_CONVERSAO_CENTS_LB_PARA_TON;
      num "cambio_brl_usd" cambio_brl_usd;
      num "resultado_cents_lb_pvu" equivalente_vhp_cents_lb_pvu ]) ] in
  (* PASSO 4 *)
  let equivalente_vhp_cents_lb_fob := sugar_ny_mais_pol_cents_lb in
  let passo4 := PyDict [
    str "descricao" "Equivalente VHP c/lb FOB";
    str "formula" "Igual ao Sugar NY + Pol";
    ("valores", PyDict [
      num "sugar_ny_mais_pol_cents_lb" sugar_ny_mais_pol_cents_lb;
      num "resultado_cents_lb_fob" equivalente_vhp_cents_lb_fob ]) ] in
  let desenvolvimento := PyDict [
    ("passo1", passo1); ("passo2", passo2);
    ("passo3", passo3); ("passo4", passo4) ] in
  values_set "sugar_ny_mais_pol_cents_lb" (PyNum_ sugar_ny_mais_pol_cents_lb) ;;
  values_set "equivalente_vhp_reais_saca_pvu" (PyNum_ equivalente_vhp_reais_saca_pvu) ;;
  values_set "equivalente_vhp_cents_lb_pvu" (PyNum_ equivalente_vhp_cents_lb_pvu) ;;
  values_set "equivalente_vhp_cents_lb_fob" (PyNum_ equivalente_vhp_cents_lb_fob) ;;
  values_set "desenvolvimento" desenvolvimento.

Definition calc_acucar_vhp_detalhado (inputs globais : gmap string A)
  : Result A :=
  try_except (calc_acucar_vhp_detalhado_body inputs globais)
    "Erro ao calcular açúcar VHP".

(** ** Açúcar cristal ESALQ *)

Definition calc_acucar_cristal_esalq_body (inputs globais : gmap string A)
  : M A unit :=
  let preco_esalq_brl_saca := get inputs "preco_esalq_brl_saca" (of_int 0) in
  let imposto := get inputs "imposto" (of_int 0) in
  let frete_santos_usina_brl_ton := get inputs "frete_santos_usina_brl_ton" (of_int 0) in
  let custo_fobizacao_container_brl_ton :=
    get inputs "custo_fobizacao_container_brl_ton" (of_int 0) in
  let custo_vhp_para_cristal := get inputs "custo_vhp_para_cristal" (of_int 0) in
  let cambio_brl_usd := get globais "cambio_brl_usd" (of_int 1) in
  let custo_terminal_usd_ton := get globais "custo_terminal_usd_ton" (of_int 0) in
  valida_cambio cambio_brl_usd ;;
  let* imposto_percentual := percentual imposto in
  (* 1 *)
  let equivalente_cristal_reais_saca_pvu :=
    preco_esalq_brl_saca * (of_int 1 - imposto_percentual) in
  (* 2 *)
  let equivalente_vhp_reais_saca_pvu :=
    equivalente_cristal_reais_saca_pvu - custo_vhp_para_cristal in
  (* 3 *)
  let* t3 := (equivalente_vhp_reais_saca_pvu * SACAS_POR_TON)
               // FATOR_CONVERSAO_CENTS_LB_PARA_TON in
  let* equivalente_vhp_cents_lb_pvu := t3 // cambio_brl_usd in
  (* 4 *)
  let custo_terminal_brl_ton := custo_terminal_usd_ton * cambio_brl_usd in
  let* t4 := ((equivalente_vhp_reais_saca_pvu * SACAS_POR_TON)
                + frete_santos_usina_brl_ton + custo_terminal_brl_ton)
               // FATOR_CONVERSAO_CENTS_LB_PARA_TON in
  let* equivalente_vhp_cents_lb_fob := t4 // cambio_brl_usd in
  (* 5 *)
  let* t5 := (equivalente_cristal_reais_saca_pvu * SACAS_POR_TON)
               // FATOR_CONVERSAO_CENTS_LB_PARA_TON in
  let* t5' := t5 // cambio_brl_usd in
  let* a5 := of_int 15 // FATOR_CONVERSAO_CENTS_LB_PARA_TON in
  let* a5' := a5 // cambio_brl_usd in
  let equivalente_cristal_cents_lb_pvu := t5' - a5' in
  (* 6 *)
  let* t6 := ((equivalente_cristal_reais_saca_pvu * SACAS_POR_TON)
                + frete_santos_usina_brl_ton + custo_fobizacao_container_brl_ton)
               // lit_22_04622 in
  let* equivalente_cristal_cents_lb_fob := t6 // cambio_brl_usd in
  values_set "equivalente_cristal_reais_saca_pvu" (PyNum_ equivalente_cristal_reais_saca_pvu) ;;
  values_set "equivalente_vhp_reais_saca_pvu" (PyNum_ equivalente_vhp_reais_saca_pvu) ;;
  values_set "equivalente_vhp_cents_lb_pvu" (PyNum_ equivalente_vhp_cents_lb_pvu) ;;
  values_set "equivalente_vhp_cents_lb_fob" (PyNum_ equivalente_vhp_cents_lb_fob) ;;
  values_set "equivalente_cristal_cents_lb_pvu" (PyNum_ equivalente_cristal_cents_lb_pvu) ;;
  values_set "equivalente_cristal_cents_lb_fob" (PyNum_ equivalente_cristal_cents_lb_fob).

Definition calc_acucar_cristal_esalq (inputs globais : gmap string A)
  : Result A :=
  try_except (calc_acucar_cristal_esalq_body inputs globais)
    "Erro ao calcular açúcar cristal ESALQ".

(** ** Paridade de comercialização MI / NY (cristal, mercado interno) *)

Definition calc_paridade_comercializacao_mi_ny_body
  (inputs globais : gmap string A) : M A unit :=
  let acucar_ny_cents_lb := get inputs "acucar_ny_cents_lb" (of_int 0) in
  let premio_fisico_mi := get inputs "premio_fisico_mi" (of_int 0) in
  let cambio_brl_usd := get globais "cambio_brl_usd" (of_int 1) in
  let custo_terminal_usd_ton := get globais "custo_terminal_usd_ton" (of_int 0) in
  let frete_santos_usina_brl_ton := get globais "frete_santos_usina_brl_ton" (of_int 0) in
  let custo_fobizacao_container_brl_ton :=
    get globais "custo_fobizacao_container_brl_ton" (of_int 0) in
  let custo_vhp_para_cristal := get globais "custo_vhp_para_cristal" (of_int 0) in
  valida_cambio cambio_brl_usd ;;
  (* 1 *)
  let acucar_ny_usd_ton := acucar_ny_cents_lb * lit_22_04622 in
  let acucar_com_premio_usd_ton := acucar_ny_usd_ton + premio_fisico_mi in
  let acucar_com_premio_brl_ton := acucar_com_premio_usd_ton * cambio_brl_usd in
  let* equivalente_cristal_reais_saca_pvu :=
    acucar_com_premio_brl_ton // SACAS_POR_TON in
  (* 2 *)
  let equivalente_vhp_reais_saca_pvu :=
    equivalente_cristal_reais_saca_pvu - custo_vhp_para_cristal in
  (* 3 *)
  let* t3 := (equivalente_vhp_reais_saca_pvu * SACAS_POR_TON)
               // FATOR_CONVERSAO_CENTS_LB_PARA_TON in
  let* equivalente_vhp_cents_lb_pvu := t3 // cambio_brl_usd in
  (* 4 *)
  let custo_terminal_brl_ton := custo_terminal_usd_ton * cambio_brl_usd in
  let* t4 := ((equivalente_vhp_reais_saca_pvu * SACAS_POR_TON)
                + frete_santos_usina_brl_ton + custo_terminal_brl_ton)
               // FATOR_CONVERSAO_CENTS_LB_PARA_TON in
  let* equivalente_vhp_cents_lb_fob := t4 // cambio_brl_usd in
  (* 5 *)
  let* t5 := (equivalente_cristal_reais_saca_pvu * SACAS_POR_TON)
               // FATOR_CONVERSAO_CENTS_LB_PARA_TON in
  let* equivalente_cristal_cents_lb_pvu := t5 // cambio_brl_usd in
  (* 6 *)
  let* t6 := (equivalente_cristal_reais_saca_pvu * SACAS_POR_TON
                + custo_fobizacao_container_brl_ton + frete_santos_usina_brl_ton)
               // FATOR_CONVERSAO_CENTS_LB_PARA_TON in
  let* equivalente_cristal_cents_lb_fob := t6 // cambio_brl_usd in
  values_set "equivalente_cristal_reais_saca_pvu" (PyNum_ equivalente_cristal_reais_saca_pvu) ;;
  values_set "equivalente_vhp_reais_saca_pvu" (PyNum_ equivalente_vhp_reais_saca_pvu) ;;
  values_set "equivalente_vhp_cents_lb_pvu" (PyNum_ equivalente_vhp_cents_lb_pvu) ;;
  values_set "equivalente_vhp_cents_lb_fob" (PyNum_ equivalente_vhp_cents_lb_fob) ;;
  values_set "equivalente_cristal_cents_lb_pvu" (PyNum_ equivalente_cristal_cents_lb_pvu) ;;
  values_set "equivalente_cristal_cents_lb_fob" (PyNum_ equivalente_cristal_cents_lb_fob).

Definition calc_paridade_comercializacao_mi_ny (inputs globais : gmap string A)
  : Result A :=
  try_except (calc_paridade_comercializacao_mi_ny_body inputs globais)
    "Erro ao calcular custo de comercialização açúcar cristal MI".

(** ** Açúcar cristal exportação *)

Definition calc_acucar_cristal_exportacao_body
  (inputs globais : gmap string A) : M A unit :=
  let acucar_ny_cents_lb := get inputs "acucar_ny_cents_lb" (of_int 0) in
  let premio_fisico_exportacao := get inputs "premio_fisico_exportacao" (of_int 0) in
  let cambio_brl_usd := get globais "cambio_brl_usd" (of_int 1) in
  let custo_terminal_usd_ton := get globais "custo_terminal_usd_ton" (of_int 0) in
  let frete_brl_ton := get globais "frete_brl_ton" (of_int 0) in
  let custo_fobizacao_container_brl_ton :=
    get globais "custo_fobizacao_container_brl_ton" (of_int 0) in
  let custo_vhp_para_cristal := get globais "custo_vhp_para_cristal" (of_int 0) in
  valida_cambio cambio_brl_usd ;;
  (* 1 *)
  let acucar_ny_usd_ton := acucar_ny_cents_lb * lit_22_04622 in
  let acucar_com_premio_usd_ton := acucar_ny_usd_ton + premio_fisico_exportacao in
  let acucar_com_premio_brl_ton := acucar_com_premio_usd_ton * cambio_brl_usd in
  let* equivalente_cristal_reais_saca_pvu :=
    (acucar_com_premio_brl_ton - custo_fobizacao_container_brl_ton - frete_brl_ton)
      // SACAS_POR_TON in
  (* 2 *)
  let equivalente_vhp_reais_saca_pvu :=
    equivalente_cristal_reais_saca_pvu - custo_vhp_para_cristal in
  (* 3 *)
  let* t3 := (equivalente_vhp_reais_saca_pvu * SACAS_POR_TON)
               // FATOR_CONVERSAO_CENTS_LB_PARA_TON in
  let* equivalente_vhp_cents_lb_pvu := t3 // cambio_brl_usd in
  (* 4 *)
  let custo_terminal_brl_ton := custo_terminal_usd_ton * cambio_brl_usd in
  let* t4 := ((equivalente_vhp_reais_saca_pvu * SACAS_POR_TON)
                + frete_brl_ton + custo_terminal_brl_ton)
               // FATOR_CONVERSAO_CENTS_LB_PARA_TON in
  let* equivalente_vhp_cents_lb_fob := t4 // cambio_brl_usd in
  (* 5 *)
  let* t5 := (equivalente_cristal_reais_saca_pvu * SACAS_POR_TON)
               // FATOR_CONVERSAO_CENTS_LB_PARA_TON in
  let* equivalente_cristal_cents_lb_pvu := t5 // cambio_brl_usd in
  (* 6 *)
  let* equivalente_cristal_cents_lb_fob :=
    ((acucar_ny_cents_lb * lit_22_04622) + premio_fisico_exportacao)
      // dec 220462 4 in
  values_set "equivalente_cristal_reais_saca_pvu" (PyNum_ equivalente_cristal_reais_saca_pvu) ;;
  values_set "equivalente_vhp_reais_saca_pvu" (PyNum_ equivalente_vhp_reais_saca_pvu) ;;
  values_set "equivalente_vhp_cents_lb_pvu" (PyNum_ equivalente_vhp_cents_lb_pvu) ;;
  values_set "equivalente_vhp_cents_lb_fob" (PyNum_ equivalente_vhp_cents_lb_fob) ;;
  values_set "equivalente_cristal_cents_lb_pvu" (PyNum_ equivalente_cristal_cents_lb_pvu) ;;
  values_set "equivalente_cristal_cents_lb_fob" (PyNum_ equivalente_cristal_cents_lb_fob).

Definition calc_acucar_cristal_exportacao (inputs globais : gmap string A)
  : Result A :=
  try_except (calc_acucar_cristal_exportacao_body inputs globais)
    "Erro ao calcular açúcar cristal exportação".

(** ** Açúcar cristal exportação malha 30 *)

Definition calc_acucar_cristal_exportacao_malha30_body
  (inputs globais : gmap string A) : M A unit :=
  let acucar_ny_cents_lb := get inputs "acucar_ny_cents_lb" (of_int 0) in
  let premio_fisico_exportacao_malha30 :=
    get inputs "premio_fisico_exportacao_malha30" (of_int 0) in
  let cambio_brl_usd := get globais "cambio_brl_usd" (of_int 1) in
  let custo_terminal_usd_ton := get globais "custo_terminal_usd_ton" (of_int 0) in
  let frete_brl_ton := get globais "frete_brl_ton" (of_int 0) in
  let custo_fobizacao_container_brl_ton :=
    get globais "custo_fobizacao_container_brl_ton" (of_int 0) in
  let custo_vhp_para_cristal := get globais "custo_vhp_para_cristal" (of_int 0) in
  valida_cambio cambio_brl_usd ;;
  (* 1 *)
  let acucar_ny_usd_ton := acucar_ny_cents_lb * lit_22_04622 in
  let acucar_com_premio_usd_ton :=
    acucar_ny_usd_ton + premio_fisico_exportacao_malha30 in
  let acucar_com_premio_brl_ton := acucar_com_premio_usd_ton * cambio_brl_usd in
  let* equivalente_cristal_reais_saca_pvu :=
    (acucar_com_premio_brl_ton - custo_fobizacao_container_brl_ton - frete_brl_ton)
      // SACAS_POR_TON in
  (* 2 *)
  let equivalente_vhp_reais_saca_pvu :=
    equivalente_cristal_reais_saca_pvu - custo_vhp_para_cristal in
  (* 3 *)
  let* t3 := (equivalente_vhp_reais_saca_pvu * SACAS_POR_TON)
               // FATOR_CONVERSAO_CENTS_LB_PARA_TON in
  let* equivalente_vhp_cents_lb_pvu := t3 // cambio_brl_usd in
  (* 4 *)
  let custo_terminal_brl_ton := custo_terminal_usd_ton * cambio_brl_usd in
  let* t4 := ((equivalente_vhp_reais_saca_pvu * SACAS_POR_TON)
                + frete_brl_ton + custo_terminal_brl_ton)
               // FATOR_CONVERSAO_CENTS_LB_PARA_TON in
  let* equivalente_vhp_cents_lb_fob := t4 // cambio_brl_usd in
  (* 5 *)
  let* t5 := (equivalente_cristal_reais_saca_pvu * SACAS_POR_TON)
               // FATOR_CONVERSAO_CENTS_LB_PARA_TON in
  let* equivalente_cristal_cents_lb_pvu := t5 // cambio_brl_usd in
  (* 6 *)
  let* equivalente_cristal_cents_lb_fob :=
    ((acucar_ny_cents_lb * lit_22_04622) + premio_fisico_exportacao_malha30)
      // dec 220462 4 in
  values_set "equivalente_cristal_reais_saca_pvu" (PyNum_ equivalente_cristal_reais_saca_pvu) ;;
  values_set "equivalente_vhp_reais_saca_pvu" (PyNum_ equivalente_vhp_reais_saca_pvu) ;;
  values_set "equivalente_vhp_cents_lb_pvu" (PyNum_ equivalente_vhp_cents_lb_pvu) ;;
  values_set "equivalente_vhp_cents_lb_fob" (PyNum_ equivalente_vhp_cents_lb_fob) ;;
  values_set "equivalente_cristal_cents_lb_pvu" (PyNum_ equivalente_cristal_cents_lb_pvu) ;;
  values_set "equivalente_cristal_cents_lb_fob" (PyNum_ equivalente_cristal_cents_lb_fob).

Definition calc_acucar_cristal_exportacao_malha30
  (inputs globais : gmap string A) : Result A :=
  try_except (calc_acucar_cristal_exportacao_malha30_body inputs globais)
    "Erro ao calcular açúcar cristal exportação malha 30".

(** ** Etanol anidro exportação *)

Definition calc_etanol_anidro_exportacao_body (inputs globais : gmap string A)
  : M A unit :=
  let preco_anidro_fob_usd := get inputs "preco_anidro_fob_usd" (of_int 0) in
  let frete_etanol_porto_usina := get inputs "frete_etanol_porto_usina" (of_int 0) in
  let custo_terminal_etanol := get inputs "custo_terminal_etanol" (of_int 0) in
  let custo_supervisao_documentos :=
    get inputs "custo_supervisao_documentos" (of_int 0) in
  let custos_adicionais_demurrage :=
    get inputs "custos_adicionais_demurrage" (of_int 0) in
  let cambio_brl_usd := get globais "cambio_brl_usd" (of_int 1) in
  let frete_brl_ton := get globais "frete_brl_ton" (of_int 0) in
  let custo_terminal_usd_ton := get globais "custo_terminal_usd_ton" (of_int 0) in
  valida_cambio cambio_brl_usd ;;
  (* 1 *)
  let preco_brl := preco_anidro_fob_usd * cambio_brl_usd in
  let preco_liquido_pvu :=
    preco_brl - frete_etanol_porto_usina - custo_terminal_etanol
      - custo_supervisao_documentos - custos_adicionais_demurrage in
  (* 2 *)
  let* equivalente_vhp_reais_saca_pvu :=
    preco_liquido_pvu // FATOR_ETANOL_ANIDRO_LITROS_POR_SACA in
  (* 3 *)
  let* t3 := (equivalente_vhp_reais_saca_pvu * SACAS_POR_TON)
               // FATOR_CONVERSAO_CENTS_LB_PARA_TON in
  let* t3' := t3 // cambio_brl_usd in
  let* equivalente_vhp_cents_lb_pvu := t3' // FATOR_AJUSTE_ETANOL in
  (* 4 *)
  let custo_terminal_brl_ton := custo_terminal_usd_ton * cambio_brl_usd in
  let* t4 := ((equivalente_vhp_reais_saca_pvu * SACAS_POR_TON)
                + frete_brl_ton + custo_terminal_brl_ton)
               // FATOR_CONVERSAO_CENTS_LB_PARA_TON in
  let* t4' := t4 // cambio_brl_usd in
  let* equivalente_vhp_cents_lb_fob := t4' // FATOR_AJUSTE_ETANOL in
  values_set "preco_liquido_pvu" (PyNum_ preco_liquido_pvu) ;;
  values_set "equivalente_vhp_reais_saca_pvu" (PyNum_ equivalente_vhp_reais_saca_pvu) ;;
  values_set "equivalente_vhp_cents_lb_pvu" (PyNum_ equivalente_vhp_cents_lb_pvu) ;;
  values_set "equivalente_vhp_cents_lb_fob" (PyNum_ equivalente_vhp_cents_lb_fob).

Definition calc_etanol_anidro_exportacao (inputs globais : gmap string A)
  : Result A :=
  try_except (calc_etanol_anidro_exportacao_body inputs globais)
    "Erro ao calcular etanol anidro exportação".

(** ** Etanol hidratado exportação *)

Definition calc_etanol_hidratado_exportacao_body (inputs globais : gmap string A)
  : M A unit :=
  let preco_hidratado_fob_usd := get inputs "preco_hidratado_fob_usd" (of_int 0) in
  let frete_etanol_porto_usina := get inputs "frete_etanol_porto_usina" (of_int 0) in
  let custo_terminal_etanol := get inputs "custo_terminal_etanol" (of_int 0) in
  let custo_supervisao_documentos :=
    get inputs "custo_supervisao_documentos" (of_int 0) in
  let custos_adicionais_demurrage :=
    get inputs "custos_adicionais_demurrage" (of_int 0) in
  let cambio_brl_usd := get globais "cambio_brl_usd" (of_int 1) in
  let frete_brl_ton := get globais "frete_brl_ton" (of_int 0) in
  let custo_terminal_usd_ton := get globais "custo_terminal_usd_ton" (of_int 0) in
  valida_cambio cambio_brl_usd ;;
  (* 1 *)
  let preco_brl := preco_hidratado_fob_usd * cambio_brl_usd in
  let preco_liquido_pvu :=
    preco_brl - frete_etanol_porto_usina - custo_terminal_etanol
      - custo_supervisao_documentos - custos_adicionais_demurrage in
  (* 2 *)
  let* equivalente_vhp_reais_saca_pvu :=
    preco_liquido_pvu // FATOR_ETANOL_HIDRATADO_LITROS_POR_SACA in
  (* 3 *)
  let* t3 := (equivalente_vhp_reais_saca_pvu * SACAS_POR_TON)
               // FATOR_CONVERSAO_CENTS_LB_PARA_TON in
  let* t3' := t3 // cambio_brl_usd in
  let* equivalente_vhp_cents_lb_pvu := t3' // FATOR_AJUSTE_ETANOL in
  (* 4 *)
  let custo_terminal_brl_ton := custo_terminal_usd_ton * cambio_brl_usd in
  let* t4 := ((equivalente_vhp_reais_saca_pvu * SACAS_POR_TON)
                + frete_brl_ton + custo_terminal_brl_ton)
               // FATOR_CONVERSAO_CENTS_LB_PARA_TON in
  let* t4' := t4 // cambio_brl_usd in
  let* equivalente_vhp_cents_lb_fob := t4' // FATOR_AJUSTE_ETANOL in
  values_set "preco_liquido_pvu" (PyNum_ preco_liquido_pvu) ;;
  values_set "equivalente_vhp_reais_saca_pvu" (PyNum_ equivalente_vhp_reais_saca_pvu) ;;
  values_set "equivalente_vhp_cents_lb_pvu" (PyNum_ equivalente_vhp_cents_lb_pvu) ;;
  values_set "equivalente_vhp_cents_lb_fob" (PyNum_ equivalente_vhp_cents_lb_fob).

Definition calc_etanol_hidratado_exportacao (inputs globais : gmap string A)
  : Result A :=
  try_except (calc_etanol_hidratado_exportacao_body inputs globais)
    "Erro ao calcular etanol hidratado exportação".

(** ** Etanol anidro mercado interno *)

Definition calc_etanol_anidro_mercado_interno_body
  (inputs globais : gmap string A) : M A unit :=
  let preco_anidro_com_impostos_brl :=
    get inputs "preco_anidro_com_impostos_brl" (of_int 0) in
  let pis_cofins_brl := get inputs "pis_cofins_brl" (of_int 0) in
  let contribuicao_agroindustria :=
    get inputs "contribuicao_agroindustria" (of_int 0) in
  let valor_cbio_bruto := get inputs "valor_cbio_bruto" (of_int 0) in
  let cambio_brl_usd := get globais "cambio_brl_usd" (of_int 1) in
  let frete_brl_ton := get globais "frete_brl_ton" (of_int 0) in
  let custo_terminal_usd_ton := get globais "custo_terminal_usd_ton" (of_int 0) in
  let premio_fisico_mi := get globais "premio_fisico_mi" (of_int 0) in
  let custo_fobizacao_container_brl_ton :=
    get globais "custo_fobizacao_container_brl_ton" (of_int 0) in
  valida_cambio cambio_brl_usd ;;
  let* contribuicao_percentual := percentual contribuicao_agroindustria in
  (* valores intermediários *)
  let preco_liquido_pvu :=
    (preco_anidro_com_impostos_brl * (of_int 1 - contribuicao_percentual))
      - pis_cofins_brl in
  let cbio_liquido_impostos := (valor_cbio_bruto * dec 7575 4) * dec 6 1 in
  let* c3 := cbio_liquido_impostos // FATOR_CBIO_FC_ANIDRO in
  let preco_liquido_pvu_mais_cbio := preco_liquido_pvu + (c3 * of_int 1000) in
  let* equivalente_hidratado :=
    preco_liquido_pvu // (of_int 1 + FATOR_CONVERSAO_HIDRATADO) in
  (* equivalências: 1 *)
  let* equivalente_vhp_reais_saca_pvu :=
    preco_liquido_pvu_mais_cbio // FATOR_ETANOL_ANIDRO_MI_LITROS_POR_SACA in
  (* 2 *)
  let* t2 := (equivalente_vhp_reais_saca_pvu * SACAS_POR_TON)
               // FATOR_CONVERSAO_CENTS_LB_PARA_TON in
  let* equivalente_vhp_cents_lb_pvu := t2 // cambio_brl_usd in
  (* 3 *)
  let custo_terminal_brl_ton := custo_terminal_usd_ton * cambio_brl_usd in
  let* s3 := preco_liquido_pvu_mais_cbio // FATOR_ETANOL_ANIDRO_MI_LITROS_POR_SACA in
  let* t3 := ((s3 * SACAS_POR_TON) + frete_brl_ton + custo_terminal_brl_ton)
               // FATOR_CONVERSAO_CENTS_LB_PARA_TON in
  let* t3' := t3 // cambio_brl_usd in
  let* equivalente_vhp_cents_lb_fob := t3' // FATOR_AJUSTE_ETANOL in
  (* 4 *)
  let premio_fisico_brl_ton := premio_fisico_mi * cambio_brl_usd in
  let* s4 := preco_liquido_pvu_mais_cbio // FATOR_ETANOL_ANIDRO_MI_LITROS_POR_SACA in
  let* t4 := ((s4 * SACAS_POR_TON) + premio_fisico_brl_ton)
               // FATOR_CONVERSAO_CENTS_LB_PARA_TON in
  let* equivalente_cristal_cents_lb_pvu := t4 // cambio_brl_usd in
  (* 5 *)
  let* t5 := (equivalente_cristal_cents_lb_pvu * FATOR_CONVERSAO_CENTS_LB_PARA_TON)
               // SACAS_POR_TON in
  let equivalente_cristal_reais_saca_pvu := t5 * cambio_brl_usd in
  (* 6 *)
  let* s6 := preco_liquido_pvu_mais_cbio // FATOR_ETANOL_ANIDRO_MI_LITROS_POR_SACA in
  let* t6 := ((((s6 * SACAS_POR_TON) + frete_brl_ton
                  + custo_fobizacao_container_brl_ton) + premio_fisico_brl_ton))
               // FATOR_CONVERSAO_CENTS_LB_PARA_TON in
  let* equivalente_cristal_cents_lb_fob := t6 // cambio_brl_usd in
  values_set "preco_liquido_pvu" (PyNum_ preco_liquido_pvu) ;;
  values_set "cbio_liquido_impostos" (PyNum_ cbio_liquido_impostos) ;;
  values_set "preco_liquido_pvu_mais_cbio" (PyNum_ preco_liquido_pvu_mais_cbio) ;;
  values_set "equivalente_hidratado" (PyNum_ equivalente_hidratado) ;;
  values_set "equivalente_vhp_reais_saca_pvu" (PyNum_ equivalente_vhp_reais_saca_pvu) ;;
  values_set "equivalente_vhp_cents_lb_pvu" (PyNum_ equivalente_vhp_cents_lb_pvu) ;;
  values_set "equivalente_vhp_cents_lb_fob" (PyNum_ equivalente_vhp_cents_lb_fob) ;;
  values_set "equivalente_cristal_cents_lb_pvu" (PyNum_ equivalente_cristal_cents_lb_pvu) ;;
  values_set "equivalente_cristal_reais_saca_pvu" (PyNum_ equivalente_cristal_reais_saca_pvu) ;;
  values_set "equivalente_cristal_cents_lb_fob" (PyNum_ equivalente_cristal_cents_lb_fob).

Definition calc_etanol_anidro_mercado_interno (inputs globais : gmap string A)
  : Result A :=
  try_except (calc_etanol_anidro_mercado_interno_body inputs globais)
    "Erro ao calcular etanol anidro mercado interno".

(** ** Etanol hidratado mercado interno *)

Definition calc_etanol_hidratado_mercado_interno_body
  (inputs globais : gmap string A) : M A unit :=
  let preco_hidratado_com_impostos_brl :=
    get inputs "preco_hidratado_com_impostos_brl" (of_int 0) in
  let pis_cofins_brl := get inputs "pis_cofins_brl" (of_int 0) in
  let icms_percentual := get inputs "icms_percentual" (of_int 0) in
  let contribuicao_agroindustria :=
    get inputs "contribuicao_agroindustria" (of_int 0) in
  let valor_cbio_bruto := get inputs "valor_cbio_bruto" (of_int 0) in
  let cambio_brl_usd := get globais "cambio_brl_usd" (of_int 1) in
  let frete_brl_ton := get globais "frete_brl_ton" (of_int 0) in
  let custo_terminal_usd_ton := get globais "custo_terminal_usd_ton" (of_int 0) in
  let premio_fisico_mi := get globais "premio_fisico_mi" (of_int 0) in
  let custo_fobizacao_container_brl_ton :=
    get globais "custo_fobizacao_container_brl_ton" (of_int 0) in
  valida_cambio cambio_brl_usd ;;
  let* icms_percentual_val := percentual icms_percentual in
  let* contribuicao_percentual := percentual contribuicao_agroindustria in
  let cbio_liquido_impostos := (valor_cbio_bruto * dec 7575 4) * dec 6 1 in
  (* valores intermediários *)
  let preco_liquido_pvu :=
    ((preco_hidratado_com_impostos_brl * (of_int 1 - contribuicao_percentual))
       * (of_int 1 - icms_percentual_val)) - pis_cofins_brl in
  let* c2 := cbio_liquido_impostos // FATOR_CBIO_FC_HIDRATADO in
  let preco_liquido_pvu_mais_cbio := preco_liquido_pvu + (c2 * of_int 1000) in
  let equivalente_anidro :=
    preco_liquido_pvu * (of_int 1 + FATOR_CONVERSAO_HIDRATADO) in
  let preco_liquido_pvu_mais_cbio_mais_credito :=
    preco_liquido_pvu_mais_cbio + CREDITO_TRIBUTARIO in
  (* equivalências: 1 *)
  let* equivalente_vhp_reais_saca_pvu :=
    preco_liquido_pvu_mais_cbio // FATOR_ETANOL_HIDRATADO_MI_LITROS_POR_SACA in
  (* 2 *)
  let* t2 := (equivalente_vhp_reais_saca_pvu * SACAS_POR_TON)
               // FATOR_CONVERSAO_CENTS_LB_PARA_TON in
  let* equivalente_vhp_cents_lb_pvu := t2 // cambio_brl_usd in
  (* 3 *)
  let custo_terminal_brl_ton := custo_terminal_usd_ton * cambio_brl_usd in
  let* s3 := preco_liquido_pvu_mais_cbio // FATOR_ETANOL_HIDRATADO_MI_LITROS_POR_SACA in
  let* t3 := ((s3 * SACAS_POR_TON) + frete_brl_ton + custo_terminal_brl_ton)
               // FATOR_CONVERSAO_CENTS_LB_PARA_TON in
  let* t3' := t3 // cambio_brl_usd in
  let* equivalente_vhp_cents_lb_fob := t3' // FATOR_AJUSTE_ETANOL in
  (* 4 *)
  let premio_fisico_brl_ton := premio_fisico_mi * cambio_brl_usd in
  let* s4 := preco_liquido_pvu_mais_cbio // FATOR_ETANOL_HIDRATADO_MI_LITROS_POR_SACA in
  let* t4 := ((s4 * SACAS_POR_TON) + premio_fisico_brl_ton)
               // FATOR_CONVERSAO_CENTS_LB_PARA_TON in
  let* equivalente_cristal_cents_lb_pvu := t4 // cambio_brl_usd in
  (* 5 *)
  let* t5 := (equivalente_cristal_cents_lb_pvu * FATOR_CONVERSAO_CENTS_LB_PARA_TON)
               // SACAS_POR_TON in
  let equivalente_cristal_reais_saca_pvu := t5 * cambio_brl_usd in
  (* 6 *)
  let* s6 := preco_liquido_pvu_mais_cbio // FATOR_ETANOL_HIDRATADO_MI_LITROS_POR_SACA in
  let* t6 := ((((s6 * SACAS_POR_TON) + frete_brl_ton
                  + custo_fobizacao_container_brl_ton) + premio_fisico_brl_ton))
               // FATOR_CONVERSAO_CENTS_LB_PARA_TON in
  let* equivalente_cristal_cents_lb_fob := t6 // cambio_brl_usd in
  values_set "preco_liquido_pvu" (PyNum_ preco_liquido_pvu) ;;
  values_set "preco_liquido_pvu_mais_cbio" (PyNum_ preco_liquido_pvu_mais_cbio) ;;
  values_set "equivalente_anidro" (PyNum_ equivalente_anidro) ;;
  values_set "preco_liquido_pvu_mais_cbio_mais_credito"
    (PyNum_ preco_liquido_pvu_mais_cbio_mais_credito) ;;
  values_set "equivalente_vhp_reais_saca_pvu" (PyNum_ equivalente_vhp_reais_saca_pvu) ;;
  values_set "equivalente_vhp_cents_lb_pvu" (PyNum_ equivalente_vhp_cents_lb_pvu) ;;
  values_set "equivalente_vhp_cents_lb_fob" (PyNum_ equivalente_vhp_cents_lb_fob) ;;
  values_set "equivalente_cristal_cents_lb_pvu" (PyNum_ equivalente_cristal_cents_lb_pvu) ;;
  values_set "equivalente_cristal_reais_saca_pvu" (PyNum_ equivalente_cristal_reais_saca_pvu) ;;
  values_set "equivalente_cristal_cents_lb_fob" (PyNum_ equivalente_cristal_cents_lb_fob).

Definition calc_etanol_hidratado_mercado_interno
  (inputs globais : gmap string A) : Result A :=
  try_except (calc_etanol_hidratado_mercado_interno_body inputs globais)
    "Erro ao calcular etanol hidratado mercado interno".

(** ** Divisors *)

(** Every divisor that is a constant of the module. *)
Definition divisores : list A := [
  of_int 100; SACAS_POR_TON; FATOR_CONVERSAO_CENTS_LB_PARA_TON; lit_22_04622;
  FATOR_ETANOL_ANIDRO_LITROS_POR_SACA; FATOR_ETANOL_HIDRATADO_LITROS_POR_SACA;
  FATOR_ETANOL_ANIDRO_MI_LITROS_POR_SACA;
  FATOR_ETANOL_HIDRATADO_MI_LITROS_POR_SACA;
  FATOR_CBIO_FC_ANIDRO; FATOR_CBIO_FC_HIDRATADO; FATOR_AJUSTE_ETANOL;
  of_int 1 + FATOR_CONVERSAO_HIDRATADO ].

(** The exchange rate a calculator works with. *)
Definition cambio_of (globais : gmap string A) : A :=
  get globais "cambio_brl_usd" (of_int 1).

(** ** The nine calculators as one family *)

Inductive calculator : Type :=
  | AcucarVhp
  | CristalEsalq
  | ParidadeMiNy
  | CristalExportacao
  | CristalExportacaoMalha30
  | AnidroExportacao
  | HidratadoExportacao
  | AnidroMercadoInterno
  | HidratadoMercadoInterno.

Definition body_of (c : calculator) : gmap string A -> gmap string A -> M A unit :=
  match c with
  | AcucarVhp => calc_acucar_vhp_detalhado_body
  | CristalEsalq => calc_acucar_cristal_esalq_body
  | ParidadeMiNy => calc_paridade_comercializacao_mi_ny_body
  | CristalExportacao => calc_acucar_cristal_exportacao_body
  | CristalExportacaoMalha30 => calc_acucar_cristal_exportacao_malha30_body
  | AnidroExportacao => calc_etanol_anidro_exportacao_body
  | HidratadoExportacao => calc_etanol_hidratado_exportacao_body
  | AnidroMercadoInterno => calc_etanol_anidro_mercado_interno_body
  | HidratadoMercadoInterno => calc_etanol_hidratado_mercado_interno_body
  end.

Definition calc (c : calculator) : gmap string A -> gmap string A -> Result A :=
  match c with
  | AcucarVhp => calc_acucar_vhp_detalhado
  | CristalEsalq => calc_acucar_cristal_esalq
  | ParidadeMiNy => calc_paridade_comercializacao_mi_ny
  | CristalExportacao => calc_acucar_cristal_exportacao
  | CristalExportacaoMalha30 => calc_acucar_cristal_exportacao_malha30
  | AnidroExportacao => calc_etanol_anidro_exportacao
  | HidratadoExportacao => calc_etanol_hidratado_exportacao
  | AnidroMercadoInterno => calc_etanol_anidro_mercado_interno
  | HidratadoMercadoInterno => calc_etanol_hidratado_mercado_interno
  end.

(** The prefix each calculator puts before [str(e)] in its handler. *)
Definition label_of (c : calculator) : string :=
  match c with
  | AcucarVhp => "Erro ao calcular açúcar VHP"
  | CristalEsalq => "Erro ao calcular açúcar cristal ESALQ"
  | ParidadeMiNy => "Erro ao calcular custo de comercialização açúcar cristal MI"
  | CristalExportacao => "Erro ao calcular açúcar cristal exportação"
  | CristalExportacaoMalha30 => "Erro ao calcular açúcar cristal exportação malha 30"
  | AnidroExportacao => "Erro ao calcular etanol anidro exportação"
  | HidratadoExportacao => "Erro ao calcular etanol hidratado exportação"
  | AnidroMercadoInterno => "Erro ao calcular etanol anidro mercado interno"
  | HidratadoMercadoInterno => "Erro ao calcular etanol hidratado mercado interno"
  end.

End Calculators.

(** ** What the proofs use of the arithmetic *)

(** Facts about comparison with zero, subtraction of zero and the
    constant divisors; they hold in binary64 and over the reals. *)
Class PyNumLaws (A : Type) `{PyNum A} : Prop := {
  pos_not_le0 : forall c : A,
    (of_int 0 <? c)%py = true -> (c <=? of_int 0)%py = false;
  not_le0_nonzero : forall c : A,
    (c <=? of_int 0)%py = false -> (c ==? of_int 0)%py = false;
  fsub_0_r : forall x : A, (x - of_int 0)%py = x;
  divisores_nonzero :
    Forall (fun d : A => (d ==? of_int 0)%py = false) divisores;
  lit_22_04622_distinct :
    feqb (A:=A) lit_22_04622 FATOR_CONVERSAO_CENTS_LB_PARA_TON = false;
}.

Lemma Prim2SF_zero : Prim2SF (float_of_int 0) = S754_zero false.
Proof. reflexivity. Qed.

#[export] Instance float_laws : PyNumLaws float.
Proof.
  split.
  - intros c. cbn [fltb fleb of_int float_num].
    rewrite FloatAxioms.ltb_spec, FloatAxioms.leb_spec, Prim2SF_zero.
    unfold SFltb, SFleb. destruct (Prim2SF c) as [[]|[]| |[] ? ?]; cbn; congruence.
  - intros c. cbn [feqb fleb of_int float_num].
    rewrite FloatAxioms.eqb_spec, FloatAxioms.leb_spec. unfold SFeqb, SFleb.
    destruct (SFcompare _ _) as [[]|]; congruence.
  - intros x. cbn [fsub of_int float_num]. apply Prim2SF_inj.
    rewrite FloatAxioms.sub_spec, Prim2SF_zero. unfold SF64sub, SFsub.
    destruct (Prim2SF x) as [[]|[]| |[] ? ?]; reflexivity.
  - repeat constructor.
  - reflexivity.
Qed.

(** Unfolds the module constants over the reals down to decimal
    numerals that [lra] and [field] read. *)
Ltac real_consts :=
  cbv [dec of_int real_num fdiv fadd fsub fmul
    SACAS_POR_TON FATOR_CONVERSAO_CENTS_LB_PARA_TON lit_22_04622
    FATOR_ETANOL_ANIDRO_LITROS_POR_SACA FATOR_ETANOL_HIDRATADO_LITROS_POR_SACA
    FATOR_ETANOL_ANIDRO_MI_LITROS_POR_SACA FATOR_ETANOL_HIDRATADO_MI_LITROS_POR_SACA
    FATOR_CBIO_FC_ANIDRO FATOR_CBIO_FC_HIDRATADO FATOR_AJUSTE_ETANOL
    FATOR_CONVERSAO_HIDRATADO CREDITO_TRIBUTARIO] in *;
  repeat match goal with
  | |- context [(10 ^ Z.of_nat ?k)%Z] =>
      let v := eval vm_compute in (10 ^ Z.of_nat k)%Z in
      change (10 ^ Z.of_nat k)%Z with v
  | H : context [(10 ^ Z.of_nat ?k)%Z] |- _ =>
      let v := eval vm_compute in (10 ^ Z.of_nat k)%Z in
      change (10 ^ Z.of_nat k)%Z with v in H
  end.

Lemma Reqb_nonzero (x : R) : x <> 0%R -> Reqb x 0 = false.
Proof. intros Hx. unfold Reqb. destruct (Req_dec_T x 0); [contradiction|reflexivity]. Qed.

#[export] Instance real_laws : PyNumLaws R.
Proof.
  split.
  - intros c. cbn [fltb fleb of_int real_num]. unfold Rltb, Rleb.
    destruct (Rlt_dec 0 c), (Rle_dec c 0); try reflexivity; try discriminate. lra.
  - intros c. cbn [feqb fleb of_int real_num]. unfold Reqb, Rleb.
    destruct (Rle_dec c 0), (Req_dec_T c 0); try reflexivity; try discriminate. lra.
  - intros x. cbn. lra.
  - unfold divisores.
    repeat apply Forall_cons_2; try apply Forall_nil_2;
      apply Reqb_nonzero;
      real_consts; lra.
  - cbn [feqb real_num]. unfold Reqb.
    destruct (Req_dec_T _ _) as [E|E]; [|reflexivity].
    exfalso. revert E. unfold lit_22_04622. real_consts. lra.
Qed.

(** ** Running a calculator *)

Section Running.
Context {A : Type} `{PyNum A} `{!PyNumLaws A}.
Local Open Scope py_scope.

Lemma calc_unfold (c : calculator) (inputs globais : gmap string A) :
  calc c inputs globais = try_except (body_of c inputs globais) (label_of c).
Proof. destruct c; reflexivity. Qed.

Lemma divisor_nonzero (d : A) : d ∈ divisores -> (d ==? of_int 0) = false.
Proof.
  intros Hd. pose proof divisores_nonzero as Hall.
  rewrite Forall_forall in Hall. apply Hall, Hd.
Qed.

(** The value of [v / 100 if v > 1 else v]. *)
Definition percentual_val (v : A) : A :=
  if v >? of_int 1 then v / of_int 100 else v.

Lemma run_div {X} (x y : A) (k : A -> M A X) (st : Result A) :
  (y ==? of_int 0) = false ->
  (let* r := x // y in k r) st = k (x / y) st.
Proof. intros Hy. unfold bind, py_div. rewrite Hy. reflexivity. Qed.

Lemma run_percentual {X} (v : A) (k : A -> M A X) (st : Result A) :
  (let* p := percentual v in k p) st = k (percentual_val v) st.
Proof.
  unfold percentual, percentual_val. destruct (v >? of_int 1).
  - apply run_div, divisor_nonzero. apply list_elem_of_here.
  - reflexivity.
Qed.

Lemma run_set {X} (key : string) (v : pyval A) (k : M A X) (st : Result A) :
  (values_set key v ;; k) st
  = k (mkResult (<[key := v]> (values st)) (errors st)).
Proof. reflexivity. Qed.

Lemma run_valida_ok {X} (c : A) (k : M A X) (st : Result A) :
  (c <=? of_int 0) = false -> (valida_cambio c ;; k) st = k st.
Proof. intros Hc. unfold valida_cambio, when, bind. rewrite Hc. reflexivity. Qed.

Lemma run_valida_fail {X} (c : A) (k : M A X) (st : Result A) :
  (c <=? of_int 0) = true ->
  (valida_cambio c ;; k) st
  = (mkResult (values st) (errors st ++ [cambio_msg]), Returned).
Proof. intros Hc. unfold valida_cambio, when, bind. rewrite Hc. reflexivity. Qed.

Lemma run_set_last (key : string) (v : pyval A) (st : Result A) :
  values_set key v st
  = (mkResult (<[key := v]> (values st)) (errors st), Normal tt).
Proof. reflexivity. Qed.

Lemma percentual_ret (v : A) : percentual v = ret (percentual_val v).
Proof.
  unfold percentual, percentual_val, py_div.
  rewrite (divisor_nonzero (of_int 100)) by apply list_elem_of_here.
  destruct (v >? of_int 1); reflexivity.
Qed.

End Running.

(** Side conditions of [run_div]: the divisor is the exchange rate that
    passed validation, or one of the module constants. *)
Ltac solve_nonzero :=
  first
    [ assumption
    | apply not_le0_nonzero; assumption
    | apply divisor_nonzero; unfold divisores;
      repeat first [ apply list_elem_of_here | apply list_elem_of_further ] ].

(** Exposes the body of a calculator inside its [try]/[except] frame. *)
Ltac unfold_calc :=
  cbn [calc];
  unfold calc_acucar_vhp_detalhado, calc_acucar_cristal_esalq,
    calc_paridade_comercializacao_mi_ny, calc_acucar_cristal_exportacao,
    calc_acucar_cristal_exportacao_malha30, calc_etanol_anidro_exportacao,
    calc_etanol_hidratado_exportacao, calc_etanol_anidro_mercado_interno,
    calc_etanol_hidratado_mercado_interno, try_except;
  unfold calc_acucar_vhp_detalhado_body, calc_acucar_cristal_esalq_body,
    calc_paridade_comercializacao_mi_ny_body,
    calc_acucar_cristal_exportacao_body,
    calc_acucar_cristal_exportacao_malha30_body,
    calc_etanol_anidro_exportacao_body, calc_etanol_hidratado_exportacao_body,
    calc_etanol_anidro_mercado_interno_body,
    calc_etanol_hidratado_mercado_interno_body.

(** Symbolic execution of a calculator body on its success path, given
    [Hc : (cambio_of globais <=? of_int 0) = false] in the context:
    every zero check of a division is decided first, then the monad is
    reduced away. *)
Ltac decide_divisions :=
  repeat match goal with
  | |- context [feqb ?d (of_int 0)] =>
      let E := fresh "E" in
      assert (E : feqb d (of_int 0) = false) by solve_nonzero;
      rewrite E; clear E
  end.

Ltac run_body :=
  cbv zeta;
  rewrite ?percentual_ret;
  cbv beta delta [bind py_div valida_cambio when];
  match goal with
  | Hc : fleb ?c _ = false |- _ =>
      unfold cambio_of in Hc; rewrite Hc;
      rewrite ?(not_le0_nonzero _ Hc)
  end;
  decide_divisions;
  cbv beta iota delta [ret raise values_set fst snd];
  cbn [values errors].

(** Lookup of a literal key in the [values] dict a run has built. *)
Ltac lookup_values :=
  repeat first
    [ rewrite lookup_insert_eq
    | rewrite lookup_insert_ne by discriminate ].

(** * Properties *)

Section Properties.
Context {A : Type} `{PyNum A} `{!PyNumLaws A}.
Local Open Scope py_scope.

Implicit Types inputs globais : gmap string A.

(** A calculator whose exchange rate passed validation. *)
Definition cambio_positivo globais : Prop :=
  (of_int 0 <? cambio_of globais) = true.

Lemma cambio_positivo_valida globais :
  cambio_positivo globais -> (cambio_of globais <=? of_int 0) = false.
Proof. apply pos_not_le0. Qed.

(** ** Validation failure *)

Lemma get_lookup (d : gmap string A) (key : string) (x dflt : A) :
  d !! key = Some x -> get d key dflt = x.
Proof. intros Hx. unfold get. rewrite Hx. reflexivity. Qed.

(** C1: when the exchange rate stored under ['cambio_brl_usd'] is
    [<= 0], each of the nine calculators returns the record whose
    [errors] is exactly ["Câmbio deve ser maior que zero"] and whose
    [values] is the empty dict. *)
Theorem cambio_invalido_short_circuits (c : calculator) inputs globais (x : A) :
  globais !! "cambio_brl_usd" = Some x ->
  (x <=? of_int 0) = true ->
  calc c inputs globais = mkResult ∅ ["Câmbio deve ser maior que zero"].
Proof.
  intros Hx Hle.
  assert (Hc : (get globais "cambio_brl_usd" (of_int 1) <=? of_int 0) = true)
    by (rewrite (get_lookup _ _ x) by exact Hx; exact Hle).
  destruct c; unfold_calc; cbv zeta;
    rewrite run_valida_fail by exact Hc; reflexivity.
Qed.

(** ** Açúcar VHP: the FOB equivalent *)

(** [sugar_ny_mais_pol_cents_lb] as step 1 computes it. *)
Definition sugar_ny_mais_pol inputs : A :=
  (get inputs "acucar_ny_cents_lb" (of_int 0)
     + get inputs "premio_desconto" (of_int 0))
  * (of_int 1 + percentual_val (get inputs "premio_pol" (of_int 0))).

(** C2: on the success path of [calc_acucar_vhp_detalhado] the value
    stored under ['equivalente_vhp_cents_lb_fob'] (step 4) is the very
    scalar stored under ['sugar_ny_mais_pol_cents_lb'] (step 1). *)
Theorem vhp_fob_is_sugar_ny_mais_pol inputs globais :
  cambio_positivo globais ->
  let r := calc_acucar_vhp_detalhado inputs globais in
  values r !! "sugar_ny_mais_pol_cents_lb"
    = Some (PyNum_ (sugar_ny_mais_pol inputs))
  /\ values r !! "equivalente_vhp_cents_lb_fob"
    = values r !! "sugar_ny_mais_pol_cents_lb".
Proof.
  intros Hpos%cambio_positivo_valida r. subst r.
  unfold_calc. run_body. lookup_values. split; reflexivity.
Qed.

(** ** No exception leaves a calculator *)

(** The initial locals of a calculator: [errors = []], [values = {}]. *)
Definition locals0 : Result A := mkResult ∅ [].

Lemma body_outcome (c : calculator) inputs globais :
  exists st o,
    body_of c inputs globais locals0 = (st, o) /\ (o = Normal tt \/ o = Returned).
Proof.
  unfold locals0.
  destruct (cambio_of globais <=? of_int 0) eqn:Hc.
  - destruct c; eexists _, Returned; (split; [|right; reflexivity]);
      cbn [body_of]; unfold_calc; cbv zeta;
      rewrite run_valida_fail by exact Hc; reflexivity.
  - destruct c; eexists _, (Normal tt); (split; [|left; reflexivity]);
      cbn [body_of]; unfold_calc; run_body; reflexivity.
Qed.

(** C3: every calculator is its body inside the [try]/[except] frame;
    the frame turns whatever a body raises into one more entry of
    [errors], built from the calculator's label and [str(e)], and keeps
    [values] as the body left it; and with scalar parameters no
    statement of any of the nine bodies raises at all, so the record
    returned is the pair of locals at the end of the body or at its
    early [return]. *)
Theorem calculators_never_raise (c : calculator) inputs globais :
  (forall (body : M A unit) (label : string) st e,
      body locals0 = (st, Raised e) ->
      try_except body label
      = mkResult (values st) (errors st ++ [label +:+ ": " +:+ str_exn e]))
  /\ calc c inputs globais = try_except (body_of c inputs globais) (label_of c)
  /\ exists st o,
       body_of c inputs globais locals0 = (st, o)
       /\ (o = Normal tt \/ o = Returned)
       /\ calc c inputs globais = st.
Proof.
  split; [|split].
  - intros body label st e Hb. unfold try_except. fold locals0.
    rewrite Hb. reflexivity.
  - apply calc_unfold.
  - destruct (body_outcome c inputs globais) as (st & o & Hb & Ho).
    exists st, o. split; [exact Hb|]. split; [exact Ho|].
    rewrite calc_unfold. unfold try_except. fold locals0. rewrite Hb.
    destruct Ho as [->| ->]; reflexivity.
Qed.

(** ** Açúcar cristal ESALQ: the chain of six values *)

(** The six outputs as the specification words them, from the
    parameters and the normalized tax rate. *)
Section EsalqSpec.
Variables (preco_esalq_brl_saca imposto_normalizado custo_vhp_para_cristal
           frete_santos_usina_brl_ton custo_terminal_usd_ton
           custo_fobizacao_container_brl_ton cambio : A).

Definition spec_esalq_cristal_reais_saca_pvu : A :=
  preco_esalq_brl_saca * (of_int 1 - imposto_normalizado).

Definition spec_esalq_vhp_reais_saca_pvu : A :=
  spec_esalq_cristal_reais_saca_pvu - custo_vhp_para_cristal.

Definition spec_esalq_vhp_cents_lb_pvu : A :=
  (spec_esalq_vhp_reais_saca_pvu * of_int 20 / dec 220462 4) / cambio.

Definition spec_esalq_vhp_cents_lb_fob : A :=
  ((spec_esalq_vhp_reais_saca_pvu * of_int 20 + frete_santos_usina_brl_ton
      + custo_terminal_usd_ton * cambio) / dec 220462 4) / cambio.

Definition spec_esalq_cristal_cents_lb_pvu : A :=
  (spec_esalq_cristal_reais_saca_pvu * of_int 20 / dec 220462 4) / cambio
  - of_int 15 / dec 220462 4 / cambio.

Definition spec_esalq_cristal_cents_lb_fob : A :=
  ((spec_esalq_cristal_reais_saca_pvu * of_int 20 + frete_santos_usina_brl_ton
      + custo_fobizacao_container_brl_ton) / dec 2204622 5) / cambio.

End EsalqSpec.

(** C4: for an exchange rate [> 0], [calc_acucar_cristal_esalq]
    reports no error and stores the six values of the chain: the
    net-of-tax Crystal price per bag, the VHP price per bag, the VHP
    per-pound values ex-mill and FOB, the Crystal per-pound value
    ex-mill (less [15 / 22.0462 / cambio]) and the Crystal per-pound
    FOB value, the last one dividing by [22.04622], a constant distinct
    from the [22.0462] of the other conversions. *)
Theorem esalq_chain inputs globais :
  cambio_positivo globais ->
  let preco := get inputs "preco_esalq_brl_saca" (of_int 0) in
  let imposto := percentual_val (get inputs "imposto" (of_int 0)) in
  let custo := get inputs "custo_vhp_para_cristal" (of_int 0) in
  let frete := get inputs "frete_santos_usina_brl_ton" (of_int 0) in
  let fobizacao := get inputs "custo_fobizacao_container_brl_ton" (of_int 0) in
  let terminal := get globais "custo_terminal_usd_ton" (of_int 0) in
  let cambio := cambio_of globais in
  let r := calc_acucar_cristal_esalq inputs globais in
  errors r = []
  /\ values r !! "equivalente_cristal_reais_saca_pvu"
     = Some (PyNum_ (spec_esalq_cristal_reais_saca_pvu preco imposto))
  /\ values r !! "equivalente_vhp_reais_saca_pvu"
     = Some (PyNum_ (spec_esalq_vhp_reais_saca_pvu preco imposto custo))
  /\ values r !! "equivalente_vhp_cents_lb_pvu"
     = Some (PyNum_ (spec_esalq_vhp_cents_lb_pvu preco imposto custo cambio))
  /\ values r !! "equivalente_vhp_cents_lb_fob"
     = Some (PyNum_ (spec_esalq_vhp_cents_lb_fob
                       preco imposto custo frete terminal cambio))
  /\ values r !! "equivalente_cristal_cents_lb_pvu"
     = Some (PyNum_ (spec_esalq_cristal_cents_lb_pvu preco imposto cambio))
  /\ values r !! "equivalente_cristal_cents_lb_fob"
     = Some (PyNum_ (spec_esalq_cristal_cents_lb_fob
                       preco imposto frete fobizacao cambio))
  /\ feqb (A:=A) (dec 2204622 5) (dec 220462 4) = false.
Proof.
  intros Hpos%cambio_positivo_valida; intros. subst r.
  unfold_calc. run_body. lookup_values.
  repeat split; try reflexivity. apply lit_22_04622_distinct.
Qed.

(** ** The three Crystal variants *)

(** The six keys the Crystal calculators store. *)
Definition chaves_cristal : list string := [
  "equivalente_cristal_reais_saca_pvu"; "equivalente_vhp_reais_saca_pvu";
  "equivalente_vhp_cents_lb_pvu"; "equivalente_vhp_cents_lb_fob";
  "equivalente_cristal_cents_lb_pvu"; "equivalente_cristal_cents_lb_fob" ].

(** The export calculator and its malha-30 copy are the same function
    of the exchange price, the premium and the globals. *)
Lemma exportacao_malha30_same (i_exp i_m30 : gmap string A) globais :
  get i_exp "acucar_ny_cents_lb" (of_int 0)
    = get i_m30 "acucar_ny_cents_lb" (of_int 0) ->
  get i_exp "premio_fisico_exportacao" (of_int 0)
    = get i_m30 "premio_fisico_exportacao_malha30" (of_int 0) ->
  values (calc_acucar_cristal_exportacao i_exp globais)
    = values (calc_acucar_cristal_exportacao_malha30 i_m30 globais)
  /\ (cambio_positivo globais ->
      errors (calc_acucar_cristal_exportacao i_exp globais) = []
      /\ errors (calc_acucar_cristal_exportacao_malha30 i_m30 globais) = []).
Proof.
  intros Hny Hp.
  destruct (cambio_of globais <=? of_int 0) eqn:Hc.
  - split.
    + unfold_calc; cbv zeta. rewrite !run_valida_fail by exact Hc. reflexivity.
    + intros Hpos%cambio_positivo_valida. congruence.
  - unfold_calc. run_body. rewrite Hny, Hp. repeat split; reflexivity.
Qed.

(** Without fobization cost and without freight, the domestic variant
    and the export variant agree on every output computed from the
    per-bag value. *)
Lemma mi_ny_exportacao_agree (i_mi i_exp : gmap string A) globais :
  cambio_positivo globais ->
  get i_mi "acucar_ny_cents_lb" (of_int 0)
    = get i_exp "acucar_ny_cents_lb" (of_int 0) ->
  get i_mi "premio_fisico_mi" (of_int 0)
    = get i_exp "premio_fisico_exportacao" (of_int 0) ->
  get globais "custo_fobizacao_container_brl_ton" (of_int 0) = of_int 0 ->
  get globais "frete_brl_ton" (of_int 0) = of_int 0 ->
  get globais "frete_santos_usina_brl_ton" (of_int 0) = of_int 0 ->
  Forall (fun k =>
      values (calc_paridade_comercializacao_mi_ny i_mi globais) !! k
      = values (calc_acucar_cristal_exportacao i_exp globais) !! k)
    [ "equivalente_cristal_reais_saca_pvu"; "equivalente_vhp_reais_saca_pvu";
      "equivalente_vhp_cents_lb_pvu"; "equivalente_vhp_cents_lb_fob";
      "equivalente_cristal_cents_lb_pvu" ].
Proof.
  intros Hpos%cambio_positivo_valida Hny Hp Hfob Hfrete Hsantos.
  unfold_calc. run_body. rewrite Hny, Hp, Hfob, Hfrete, Hsantos, !fsub_0_r.
  repeat apply Forall_cons_2; try apply Forall_nil_2;
    lookup_values; reflexivity.
Qed.

(** The Crystal per-pound FOB value of the two export calculators, as
    a function of the exchange price and the premium alone. *)
Definition cristal_fob_exportacao (acucar_ny_cents_lb premio : A) : A :=
  ((acucar_ny_cents_lb * dec 2204622 5) + premio) / dec 220462 4.

Lemma exportacao_cristal_fob inputs globais :
  cambio_positivo globais ->
  values (calc_acucar_cristal_exportacao inputs globais)
    !! "equivalente_cristal_cents_lb_fob"
  = Some (PyNum_ (cristal_fob_exportacao
                    (get inputs "acucar_ny_cents_lb" (of_int 0))
                    (get inputs "premio_fisico_exportacao" (of_int 0)))).
Proof.
  intros Hpos%cambio_positivo_valida.
  unfold_calc. run_body. lookup_values. reflexivity.
Qed.

Lemma exportacao_malha30_cristal_fob inputs globais :
  cambio_positivo globais ->
  values (calc_acucar_cristal_exportacao_malha30 inputs globais)
    !! "equivalente_cristal_cents_lb_fob"
  = Some (PyNum_ (cristal_fob_exportacao
                    (get inputs "acucar_ny_cents_lb" (of_int 0))
                    (get inputs "premio_fisico_exportacao_malha30" (of_int 0)))).
Proof.
  intros Hpos%cambio_positivo_valida.
  unfold_calc. run_body. lookup_values. reflexivity.
Qed.

(** The domestic variant: per-bag value and the two Crystal per-pound
    values derived from it. *)
Definition mi_ny_cristal_saca inputs globais : A :=
  ((get inputs "acucar_ny_cents_lb" (of_int 0) * lit_22_04622
      + get inputs "premio_fisico_mi" (of_int 0)) * cambio_of globais)
  / SACAS_POR_TON.

(** Per-bag to per-pound, as steps 3 and 5 of the calculators do it. *)
Definition per_pound_of_per_bag (saca cambio : A) : A :=
  ((saca * SACAS_POR_TON) / FATOR_CONVERSAO_CENTS_LB_PARA_TON) / cambio.


Lemma mi_ny_cristal_values inputs globais :
  cambio_positivo globais ->
  let r := calc_paridade_comercializacao_mi_ny inputs globais in
  let saca := mi_ny_cristal_saca inputs globais in
  values r !! "equivalente_cristal_reais_saca_pvu" = Some (PyNum_ saca)
  /\ values r !! "equivalente_cristal_cents_lb_pvu"
     = Some (PyNum_ (per_pound_of_per_bag saca (cambio_of globais)))
  /\ values r !! "equivalente_cristal_cents_lb_fob"
     = Some (PyNum_
         (((saca * SACAS_POR_TON
              + get globais "custo_fobizacao_container_brl_ton" (of_int 0)
              + get globais "frete_santos_usina_brl_ton" (of_int 0))
             / FATOR_CONVERSAO_CENTS_LB_PARA_TON) / cambio_of globais)).
Proof.
  intros Hpos%cambio_positivo_valida r saca. subst r saca.
  unfold_calc. run_body. lookup_values. repeat split; reflexivity.
Qed.


(** ** CBIO net of taxes *)

(** [(valor_cbio_bruto * 0.7575) * 0.6] *)
Definition cbio_liquido (valor_cbio_bruto : A) : A :=
  (valor_cbio_bruto * dec 7575 4) * dec 6 1.

Lemma anidro_mi_cbio inputs globais :
  cambio_positivo globais ->
  values (calc_etanol_anidro_mercado_interno inputs globais)
    !! "cbio_liquido_impostos"
  = Some (PyNum_ (cbio_liquido (get inputs "valor_cbio_bruto" (of_int 0)))).
Proof.
  intros Hpos%cambio_positivo_valida.
  unfold_calc. run_body. lookup_values. reflexivity.
Qed.

(** The hydrated calculator does not store the CBIO value; it enters
    the stored [preco_liquido_pvu_mais_cbio]. *)
Lemma hidratado_mi_cbio inputs globais :
  cambio_positivo globais ->
  exists preco_liquido_pvu,
    values (calc_etanol_hidratado_mercado_interno inputs globais)
      !! "preco_liquido_pvu" = Some (PyNum_ preco_liquido_pvu)
    /\ values (calc_etanol_hidratado_mercado_interno inputs globais)
      !! "preco_liquido_pvu_mais_cbio"
      = Some (PyNum_
          (preco_liquido_pvu
           + (cbio_liquido (get inputs "valor_cbio_bruto" (of_int 0))
                / FATOR_CBIO_FC_HIDRATADO) * of_int 1000))
    /\ values (calc_etanol_hidratado_mercado_interno inputs globais)
      !! "cbio_liquido_impostos" = None.
Proof.
  intros Hpos%cambio_positivo_valida. eexists.
  unfold_calc. run_body. lookup_values. repeat split; reflexivity.
Qed.

(** ** Açúcar VHP: dependence on the polarization premium *)

(** The VHP calculator reads [premio_pol] only through its normalized
    value. *)
Lemma vhp_depends_on_percentual (i1 i2 : gmap string A) globais :
  get i1 "acucar_ny_cents_lb" (of_int 0) = get i2 "acucar_ny_cents_lb" (of_int 0) ->
  get i1 "premio_desconto" (of_int 0) = get i2 "premio_desconto" (of_int 0) ->
  get i1 "custo_terminal_usd_ton" (of_int 0)
    = get i2 "custo_terminal_usd_ton" (of_int 0) ->
  get i1 "frete_brl_ton" (of_int 0) = get i2 "frete_brl_ton" (of_int 0) ->
  percentual_val (get i1 "premio_pol" (of_int 0))
    = percentual_val (get i2 "premio_pol" (of_int 0)) ->
  calc_acucar_vhp_detalhado i1 globais = calc_acucar_vhp_detalhado i2 globais.
Proof.
  intros Hny Hpd Hct Hfr Hpol.
  unfold_calc. cbv zeta. rewrite !percentual_ret, Hny, Hpd, Hct, Hfr, Hpol.
  reflexivity.
Qed.

Lemma vhp_values_present inputs globais :
  cambio_positivo globais ->
  Forall (fun k => exists x,
      values (calc_acucar_vhp_detalhado inputs globais) !! k = Some (PyNum_ x))
    [ "sugar_ny_mais_pol_cents_lb"; "equivalente_vhp_reais_saca_pvu";
      "equivalente_vhp_cents_lb_pvu"; "equivalente_vhp_cents_lb_fob" ].
Proof.
  intros Hpos%cambio_positivo_valida.
  unfold_calc. run_body.
  repeat apply Forall_cons_2; try apply Forall_nil_2;
    eexists; lookup_values; reflexivity.
Qed.

End Properties.

(** * Binary64 and exact arithmetic *)

Set Warnings "-inexact-float".

(** ** Reading a run in binary64 *)

(** Python's [==] on two looked-up scalars. *)
Definition py_eqb (a b : option (pyval float)) : bool :=
  match a, b with
  | Some (PyNum_ x), Some (PyNum_ y) => PrimFloat.eqb x y
  | _, _ => false
  end.

Lemma py_eqb_neq (a b : option (pyval float)) :
  py_eqb a a = true -> py_eqb a b = false -> a <> b.
Proof. intros Ha Hb ->. congruence. Qed.


(** The defaults of the dashboard ([load_sidebar_config]) for the VHP
    calculator and for the globals. *)
Definition inputs_vhp_default : gmap string float :=
  list_to_map [
    ("acucar_ny_cents_lb", 15.8%float); ("premio_desconto", (-0.1)%float);
    ("premio_pol", 4.2%float); ("custo_terminal_usd_ton", 12.5%float);
    ("frete_brl_ton", 202.0%float) ].

Definition globais_default : gmap string float :=
  list_to_map [
    ("cambio_brl_usd", 5.35%float); ("custo_terminal_usd_ton", 12.5%float);
    ("frete_brl_ton", 202.0%float);
    ("frete_santos_usina_brl_ton", 202.0%float);
    ("custo_fobizacao_container_brl_ton", 198.0%float);
    ("custo_vhp_para_cristal", 9.25%float); ("premio_fisico_mi", 0.0%float) ].

(** The same globals without fobization cost and without freight. *)
Definition globais_sem_custos : gmap string float :=
  list_to_map [
    ("cambio_brl_usd", 5.35%float); ("custo_terminal_usd_ton", 12.5%float);
    ("frete_brl_ton", 0.0%float); ("frete_santos_usina_brl_ton", 0.0%float);
    ("custo_fobizacao_container_brl_ton", 0.0%float);
    ("custo_vhp_para_cristal", 9.25%float) ].

(** One inputs dict for the three Crystal variants, every premium
    field holding the same value. *)
Definition inputs_cristal (acucar_ny_cents_lb premio : float)
  : gmap string float :=
  list_to_map [
    ("acucar_ny_cents_lb", acucar_ny_cents_lb);
    ("premio_fisico_mi", premio); ("premio_fisico_exportacao", premio);
    ("premio_fisico_exportacao_malha30", premio) ].

(** The decimal literals of the source are the correctly rounded
    binary64 values. *)
Example dec_is_literal :
  (dec 220462 4 : float) = 22.0462%float
  /\ (dec 2204622 5 : float) = 22.04622%float
  /\ (dec 7575 4 : float) = 0.7575%float
  /\ (dec 6 1 : float) = 0.6%float
  /\ (dec 1042 3 : float) = 1.042%float.
Proof. repeat split; reflexivity. Qed.

(** Scenario A of the dashboard defaults: step 1 of the VHP
    calculator. *)
Example vhp_default_passo1 :
  values (calc_acucar_vhp_detalhado inputs_vhp_default globais_default)
    !! "sugar_ny_mais_pol_cents_lb" = Some (PyNum_ 16.359400000000001%float).
Proof. vm_compute. reflexivity. Qed.

(** A body that does raise: the frame reports it and returns. *)
Example try_except_catches :
  try_except (A:=float)
    (values_set "a" (PyNum_ 1%float) ;;
     let* x := 1%float // 0%float in
     values_set "b" (PyNum_ x))
    "Erro ao calcular"
  = mkResult {[ "a" := PyNum_ 1%float ]}
      ["Erro ao calcular: float division by zero"].
Proof. vm_compute. reflexivity. Qed.

(** ** Validation failure, at an exchange rate of zero *)

Lemma cambio_invalido_witness :
  calc (A:=float) AcucarVhp inputs_vhp_default {[ "cambio_brl_usd" := 0%float ]}
  = mkResult ∅ ["Câmbio deve ser maior que zero"].
Proof.
  apply (cambio_invalido_short_circuits AcucarVhp inputs_vhp_default
           {[ "cambio_brl_usd" := 0%float ]} 0%float); reflexivity.
Defined.

Lemma vhp_fob_witness :
  let r := calc_acucar_vhp_detalhado inputs_vhp_default globais_default in
  values r !! "sugar_ny_mais_pol_cents_lb"
    = Some (PyNum_ (sugar_ny_mais_pol inputs_vhp_default))
  /\ values r !! "equivalente_vhp_cents_lb_fob"
    = values r !! "sugar_ny_mais_pol_cents_lb".
Proof.
  apply (vhp_fob_is_sugar_ny_mais_pol inputs_vhp_default globais_default).
  reflexivity.
Defined.

Lemma esalq_chain_witness :
  errors (calc_acucar_cristal_esalq
            (list_to_map [("preco_esalq_brl_saca", 115.67%float);
                          ("imposto", 9.85%float);
                          ("frete_santos_usina_brl_ton", 202.0%float);
                          ("custo_fobizacao_container_brl_ton", 198.0%float);
                          ("custo_vhp_para_cristal", 9.25%float)])
            globais_default) = [].
Proof.
  apply (esalq_chain
           (list_to_map [("preco_esalq_brl_saca", 115.67%float);
                         ("imposto", 9.85%float);
                         ("frete_santos_usina_brl_ton", 202.0%float);
                         ("custo_fobizacao_container_brl_ton", 198.0%float);
                         ("custo_vhp_para_cristal", 9.25%float)])
           globais_default).
  reflexivity.
Defined.

Lemma calculators_never_raise_witness :
  exists st o,
    body_of AcucarVhp inputs_vhp_default globais_default locals0 = (st, o)
    /\ (o = Normal tt \/ o = Returned)
    /\ calc AcucarVhp inputs_vhp_default globais_default = st.
Proof.
  apply (calculators_never_raise (A:=float)
           AcucarVhp inputs_vhp_default globais_default).
Defined.

(** ** Facts about the reals instance *)

Lemma Rltb_true (x y : R) : Rltb x y = true -> (x < y)%R.
Proof. unfold Rltb. destruct (Rlt_dec x y); [trivial|discriminate]. Qed.

Lemma Rltb_intro (x y : R) : (x < y)%R -> Rltb x y = true.
Proof. unfold Rltb. destruct (Rlt_dec x y); [trivial|contradiction]. Qed.

Lemma cambio_positivo_real (globais : gmap string R) :
  cambio_positivo globais -> (0 < cambio_of globais)%R.
Proof. apply Rltb_true. Qed.


(** Parameter dicts over the reals, for the instances below. *)
Definition inputs_cristal_real (acucar_ny_cents_lb premio : R)
  : gmap string R :=
  list_to_map [
    ("acucar_ny_cents_lb", acucar_ny_cents_lb);
    ("premio_fisico_mi", premio); ("premio_fisico_exportacao", premio);
    ("premio_fisico_exportacao_malha30", premio) ].

Definition globais_real (cambio : R) : gmap string R :=
  {[ "cambio_brl_usd" := cambio ]}.

Lemma globais_real_positivo (cambio : R) :
  (0 < cambio)%R -> cambio_positivo (globais_real cambio).
Proof. intros Hc. apply Rltb_intro. exact Hc. Qed.

(** ** The three Crystal variants *)

(** C5, as stated, fails in binary64: with the default exchange price
    and exchange rate, equal premiums, no fobization cost and no
    freight, the domestic variant and the export variant store
    different values under ['equivalente_cristal_cents_lb_fob']
    ([15.800014333535941] against [15.800014333535939]). *)
Lemma crystal_variants_differ :
  let inputs := inputs_cristal 15.8%float 0.0%float in
  exists x y,
    values (calc_paridade_comercializacao_mi_ny inputs globais_sem_custos)
      !! "equivalente_cristal_cents_lb_fob" = Some (PyNum_ x)
    /\ values (calc_acucar_cristal_exportacao inputs globais_sem_custos)
      !! "equivalente_cristal_cents_lb_fob" = Some (PyNum_ y)
    /\ x = 15.800014333535941%float
    /\ y = 15.800014333535939%float
    /\ PrimFloat.eqb x y = false.
Proof. do 2 eexists. repeat split; vm_compute; reflexivity. Qed.

(** C5, amended: for equal exchange price and equal premiums the
    export calculator and its malha-30 copy store the same six values;
    with, in addition, no fobization cost and no freight, the domestic
    calculator stores the same values as the export calculator under
    the five keys other than ['equivalente_cristal_cents_lb_fob'], in
    every arithmetic; under that last key the two formulas differ (the
    domestic one goes through the per-bag value and the exchange rate,
    the export one does not) and are equal in exact arithmetic. *)
Theorem crystal_variants_agree :
  (forall (A : Type) (HA : PyNum A) (HL : PyNumLaws A)
          (i_mi i_exp i_m30 globais : gmap string A),
      cambio_positivo globais ->
      get i_mi "acucar_ny_cents_lb" (of_int 0)
        = get i_exp "acucar_ny_cents_lb" (of_int 0) ->
      get i_exp "acucar_ny_cents_lb" (of_int 0)
        = get i_m30 "acucar_ny_cents_lb" (of_int 0) ->
      get i_mi "premio_fisico_mi" (of_int 0)
        = get i_exp "premio_fisico_exportacao" (of_int 0) ->
      get i_exp "premio_fisico_exportacao" (of_int 0)
        = get i_m30 "premio_fisico_exportacao_malha30" (of_int 0) ->
      (values (calc_acucar_cristal_exportacao i_exp globais)
         = values (calc_acucar_cristal_exportacao_malha30 i_m30 globais)
       /\ errors (calc_acucar_cristal_exportacao i_exp globais) = []
       /\ errors (calc_acucar_cristal_exportacao_malha30 i_m30 globais) = [])
      /\ (get globais "custo_fobizacao_container_brl_ton" (of_int 0) = of_int 0 ->
          get globais "frete_brl_ton" (of_int 0) = of_int 0 ->
          get globais "frete_santos_usina_brl_ton" (of_int 0) = of_int 0 ->
          Forall (fun k =>
              values (calc_paridade_comercializacao_mi_ny i_mi globais) !! k
              = values (calc_acucar_cristal_exportacao i_exp globais) !! k)
            [ "equivalente_cristal_reais_saca_pvu";
              "equivalente_vhp_reais_saca_pvu";
              "equivalente_vhp_cents_lb_pvu"; "equivalente_vhp_cents_lb_fob";
              "equivalente_cristal_cents_lb_pvu" ]))
  /\ (forall (i_mi i_exp globais : gmap string R),
      cambio_positivo globais ->
      get i_mi "acucar_ny_cents_lb" 0%R = get i_exp "acucar_ny_cents_lb" 0%R ->
      get i_mi "premio_fisico_mi" 0%R
        = get i_exp "premio_fisico_exportacao" 0%R ->
      get globais "custo_fobizacao_container_brl_ton" 0%R = 0%R ->
      get globais "frete_brl_ton" 0%R = 0%R ->
      get globais "frete_santos_usina_brl_ton" 0%R = 0%R ->
      values (calc_paridade_comercializacao_mi_ny i_mi globais)
        !! "equivalente_cristal_cents_lb_fob"
      = values (calc_acucar_cristal_exportacao i_exp globais)
        !! "equivalente_cristal_cents_lb_fob").
Proof.
  split.
  - intros A HA HL i_mi i_exp i_m30 globais Hpos Hny1 Hny2 Hp1 Hp2. split.
    + destruct (exportacao_malha30_same i_exp i_m30 globais Hny2 Hp2)
        as [Hv He].
      destruct (He Hpos) as [He1 He2]. auto.
    + intros Hfob Hfrete Hsantos.
      apply mi_ny_exportacao_agree; assumption.
  - intros i_mi i_exp globais Hpos Hny Hp Hfob Hfrete Hsantos.
    destruct (mi_ny_cristal_values i_mi globais Hpos) as (_ & _ & ->).
    rewrite (exportacao_cristal_fob i_exp globais Hpos).
    do 2 f_equal. apply cambio_positivo_real in Hpos.
    unfold mi_ny_cristal_saca, cristal_fob_exportacao, lit_22_04622.
    change (of_int 0) with 0%R. rewrite Hfob, Hsantos, <- Hny, <- Hp.
    real_consts. field. lra.
Qed.

Lemma crystal_variants_agree_witness :
  Forall (fun k =>
      values (calc_paridade_comercializacao_mi_ny
                (inputs_cristal 15.8%float 0.0%float) globais_sem_custos) !! k
      = values (calc_acucar_cristal_exportacao
                  (inputs_cristal 15.8%float 0.0%float) globais_sem_custos) !! k)
    [ "equivalente_cristal_reais_saca_pvu"; "equivalente_vhp_reais_saca_pvu";
      "equivalente_vhp_cents_lb_pvu"; "equivalente_vhp_cents_lb_fob";
      "equivalente_cristal_cents_lb_pvu" ]
  /\ values (calc_paridade_comercializacao_mi_ny
               (inputs_cristal_real 15.8 0) (globais_real 5.35))
       !! "equivalente_cristal_cents_lb_fob"
     = values (calc_acucar_cristal_exportacao
                 (inputs_cristal_real 15.8 0) (globais_real 5.35))
       !! "equivalente_cristal_cents_lb_fob".
Proof.
  split.
  - apply (proj1 crystal_variants_agree float _ _
             (inputs_cristal 15.8%float 0.0%float)
             (inputs_cristal 15.8%float 0.0%float)
             (inputs_cristal 15.8%float 0.0%float)
             globais_sem_custos); reflexivity.
  - apply (proj2 crystal_variants_agree
             (inputs_cristal_real 15.8 0) (inputs_cristal_real 15.8 0)
             (globais_real 5.35));
      try reflexivity.
    apply globais_real_positivo. lra.
Defined.

(** ** The polarization premium given as 4.2 and as 0.042 *)

Lemma get_insert_eq {A} (d : gmap string A) (key : string) (x dflt : A) :
  get (<[key := x]> d) key dflt = x.
Proof. unfold get. rewrite lookup_insert_eq. reflexivity. Qed.

Lemma get_insert_ne {A} (d : gmap string A) (key key' : string) (x dflt : A) :
  key <> key' -> get (<[key := x]> d) key' dflt = get d key' dflt.
Proof. intros Hk. unfold get. rewrite lookup_insert_ne by exact Hk. reflexivity. Qed.

(** C6: in binary64, two calls of [calc_acucar_vhp_detalhado] that
    differ only in [premio_pol], given as [4.2] in one and as [0.042]
    in the other, return the same record when the exchange rate is
    [> 0]; in particular the four computed values are present and
    equal.  The reason is the normalization: [4.2 > 1] is divided by
    [100], [0.042] is used as it is, and [4.2 / 100] is the double
    [0.042]. *)
Theorem premio_pol_representations (inputs globais : gmap string float) :
  cambio_positivo globais ->
  let r1 := calc_acucar_vhp_detalhado (<["premio_pol" := 4.2%float]> inputs) globais in
  let r2 := calc_acucar_vhp_detalhado (<["premio_pol" := 0.042%float]> inputs) globais in
  r1 = r2
  /\ Forall (fun k => exists x,
         values r1 !! k = Some (PyNum_ x) /\ values r2 !! k = Some (PyNum_ x))
       [ "sugar_ny_mais_pol_cents_lb"; "equivalente_vhp_reais_saca_pvu";
         "equivalente_vhp_cents_lb_pvu"; "equivalente_vhp_cents_lb_fob" ]
  /\ percentual_val 4.2%float = (4.2 / 100)%float
  /\ percentual_val 0.042%float = 0.042%float.
Proof.
  intros Hpos r1 r2.
  assert (Heq : r1 = r2).
  { subst r1 r2. apply vhp_depends_on_percentual;
      rewrite ?get_insert_eq, ?get_insert_ne by discriminate; reflexivity. }
  split; [exact Heq|]. split; [|split; reflexivity].
  rewrite <- Heq.
  pose proof (vhp_values_present (<["premio_pol" := 4.2%float]> inputs)
                globais Hpos) as Hall.
  fold r1 in Hall. eapply Forall_impl; [exact Hall|].
  intros k [x Hx]. exists x. auto.
Qed.

Lemma premio_pol_representations_witness :
  calc_acucar_vhp_detalhado
    (<["premio_pol" := 4.2%float]> inputs_vhp_default) globais_default
  = calc_acucar_vhp_detalhado
      (<["premio_pol" := 0.042%float]> inputs_vhp_default) globais_default.
Proof.
  apply (premio_pol_representations inputs_vhp_default globais_default).
  reflexivity.
Defined.

(** ** CBIO net of taxes *)

(** C7, as stated, fails in binary64: for [valor_cbio_bruto = 100] the
    anhydrous domestic calculator stores [45.449999999999996], which
    is not the double [45.45]. *)
Lemma cbio_100_is_not_45_45 :
  exists v,
    values (calc_etanol_anidro_mercado_interno
              {[ "valor_cbio_bruto" := 100%float ]} ∅)
      !! "cbio_liquido_impostos" = Some (PyNum_ v)
    /\ v = 45.449999999999996%float
    /\ PrimFloat.eqb v 45.45%float = false.
Proof. eexists. repeat split; vm_compute; reflexivity. Qed.

(** C7, amended: for an exchange rate [> 0], the anhydrous domestic
    calculator stores [(valor_cbio_bruto * 0.7575) * 0.6] under
    ['cbio_liquido_impostos'], and the hydrated one, which does not
    store it, adds that same two-stage product, divided by [749.75]
    and multiplied by [1000], to its net price; the value is a
    function of [valor_cbio_bruto] alone.  For [valor_cbio_bruto = 100]
    it is [45.45] in exact arithmetic and [45.449999999999996], the
    double just below the double [45.45], in binary64. *)
Theorem cbio_liquido_formula :
  (forall (A : Type) (HA : PyNum A) (HL : PyNumLaws A)
          (inputs globais : gmap string A),
      cambio_positivo globais ->
      let cbio :=
        ((get inputs "valor_cbio_bruto" (of_int 0) * dec 7575 4) * dec 6 1)%py in
      values (calc_etanol_anidro_mercado_interno inputs globais)
        !! "cbio_liquido_impostos" = Some (PyNum_ cbio)
      /\ exists preco_liquido_pvu,
           values (calc_etanol_hidratado_mercado_interno inputs globais)
             !! "preco_liquido_pvu" = Some (PyNum_ preco_liquido_pvu)
           /\ values (calc_etanol_hidratado_mercado_interno inputs globais)
                !! "preco_liquido_pvu_mais_cbio"
              = Some (PyNum_
                  (preco_liquido_pvu
                   + (cbio / FATOR_CBIO_FC_HIDRATADO) * of_int 1000)%py))
  /\ cbio_liquido 100%R = 45.45%R
  /\ cbio_liquido 100%float = 45.449999999999996%float
  /\ cbio_liquido 100%float = PrimFloat.next_down 45.45%float.
Proof.
  split; [|split; [|split]].
  - intros A HA HL inputs globais Hpos cbio. split.
    + apply anidro_mi_cbio, Hpos.
    + destruct (hidratado_mi_cbio inputs globais Hpos) as (p & Hp & Hc & _).
      exists p. split; assumption.
  - unfold cbio_liquido. real_consts. lra.
  - reflexivity.
  - reflexivity.
Qed.

Lemma cbio_liquido_formula_witness :
  values (calc_etanol_anidro_mercado_interno
            {[ "valor_cbio_bruto" := 100%float ]} globais_default)
    !! "cbio_liquido_impostos"
  = Some (PyNum_ ((100 * dec 7575 4) * dec 6 1)%float).
Proof.
  refine (proj1 (proj1 cbio_liquido_formula float _ _
                   {[ "valor_cbio_bruto" := 100%float ]} globais_default _)).
  reflexivity.
Defined.

(** ** Round trip between per-bag and per-pound values *)




(** ** Missing parameters *)

(** The only entry [errors] ever gets is the validation message. *)
Lemma errors_of_calc {A : Type} `{PyNumLaws A} (c : calculator)
  (inputs globais : gmap string A) :
  errors (calc c inputs globais)
  = if (cambio_of globais <=? of_int 0)%py then [cambio_msg] else [].
Proof.
  destruct (cambio_of globais <=? of_int 0)%py eqn:Hc.
  - destruct c; unfold_calc; cbv zeta;
      rewrite run_valida_fail by exact Hc; reflexivity.
  - destruct c; unfold_calc; run_body; reflexivity.
Qed.





(** ** The Crystal FOB value of the export calculators *)

(** Two runs of an export calculator that share the exchange price
    and the premium but nothing else. *)
Definition globais_outros : gmap string float :=
  list_to_map [
    ("cambio_brl_usd", 4.9%float); ("custo_terminal_usd_ton", 15.0%float);
    ("frete_brl_ton", 150.0%float);
    ("custo_fobizacao_container_brl_ton", 120.0%float);
    ("custo_vhp_para_cristal", 7.5%float) ].

(** C10: for an exchange rate [> 0], [calc_acucar_cristal_exportacao]
    and [calc_acucar_cristal_exportacao_malha30] store under
    ['equivalente_cristal_cents_lb_fob'] the value
    [((acucar_ny_cents_lb * 22.04622) + premium) / 22.0462], so two
    runs that agree on the exchange price and on the premium store the
    same value there, whatever their exchange rates and costs; the
    other five outputs do change with the exchange rate and the costs
    (shown on two runs in binary64). *)
Theorem cristal_fob_exportacao_independent :
  (forall (A : Type) (HA : PyNum A) (HL : PyNumLaws A)
          (i1 i2 g1 g2 : gmap string A),
      cambio_positivo g1 -> cambio_positivo g2 ->
      get i1 "acucar_ny_cents_lb" (of_int 0)
        = get i2 "acucar_ny_cents_lb" (of_int 0) ->
      (get i1 "premio_fisico_exportacao" (of_int 0)
         = get i2 "premio_fisico_exportacao" (of_int 0) ->
       values (calc_acucar_cristal_exportacao i1 g1)
         !! "equivalente_cristal_cents_lb_fob"
       = Some (PyNum_
           (((get i1 "acucar_ny_cents_lb" (of_int 0) * dec 2204622 5)
             + get i1 "premio_fisico_exportacao" (of_int 0)) / dec 220462 4)%py)
       /\ values (calc_acucar_cristal_exportacao i1 g1)
            !! "equivalente_cristal_cents_lb_fob"
          = values (calc_acucar_cristal_exportacao i2 g2)
            !! "equivalente_cristal_cents_lb_fob")
      /\ (get i1 "premio_fisico_exportacao_malha30" (of_int 0)
            = get i2 "premio_fisico_exportacao_malha30" (of_int 0) ->
          values (calc_acucar_cristal_exportacao_malha30 i1 g1)
            !! "equivalente_cristal_cents_lb_fob"
          = Some (PyNum_
              (((get i1 "acucar_ny_cents_lb" (of_int 0) * dec 2204622 5)
                + get i1 "premio_fisico_exportacao_malha30" (of_int 0))
               / dec 220462 4)%py)
          /\ values (calc_acucar_cristal_exportacao_malha30 i1 g1)
               !! "equivalente_cristal_cents_lb_fob"
             = values (calc_acucar_cristal_exportacao_malha30 i2 g2)
               !! "equivalente_cristal_cents_lb_fob"))
  /\ (let inputs := inputs_cristal 15.8%float 10.0%float in
      cambio_positivo globais_default /\ cambio_positivo globais_outros
      /\ Forall (fun c =>
           Forall (fun k =>
               values (calc c inputs globais_default) !! k
               <> values (calc c inputs globais_outros) !! k)
             [ "equivalente_cristal_reais_saca_pvu";
               "equivalente_vhp_reais_saca_pvu";
               "equivalente_vhp_cents_lb_pvu"; "equivalente_vhp_cents_lb_fob";
               "equivalente_cristal_cents_lb_pvu" ])
           [ CristalExportacao; CristalExportacaoMalha30 ]).
Proof.
  split.
  - intros A HA HL i1 i2 g1 g2 Hg1 Hg2 Hny. split; intros Hp.
    + rewrite (exportacao_cristal_fob i1 g1 Hg1),
        (exportacao_cristal_fob i2 g2 Hg2), Hny, Hp. split; reflexivity.
    + rewrite (exportacao_malha30_cristal_fob i1 g1 Hg1),
        (exportacao_malha30_cristal_fob i2 g2 Hg2), Hny, Hp. split; reflexivity.
  - intros inputs. split; [reflexivity|]. split; [reflexivity|].
    repeat (apply Forall_cons_2; [|try apply Forall_nil_2]);
      repeat apply Forall_cons_2; try apply Forall_nil_2;
      apply py_eqb_neq; vm_compute; reflexivity.
Qed.

Lemma cristal_fob_exportacao_independent_witness :
  values (calc_acucar_cristal_exportacao
            (inputs_cristal 15.8%float 10.0%float) globais_default)
    !! "equivalente_cristal_cents_lb_fob"
  = values (calc_acucar_cristal_exportacao
              (inputs_cristal 15.8%float 10.0%float) globais_outros)
    !! "equivalente_cristal_cents_lb_fob".
Proof.
  refine (proj2 (proj1 (proj1 cristal_fob_exportacao_independent float _ _
            (inputs_cristal 15.8%float 10.0%float)
            (inputs_cristal 15.8%float 10.0%float)
            globais_default globais_outros _ _ _) _)); reflexivity.
Defined.

(** * Further properties of the calculators *)

(** ** The [values] dict is filled completely or not at all *)

(** The keys each calculator stores at the end of its body. *)
Definition chaves (c : calculator) : list string :=
  match c with
  | AcucarVhp =>
      [ "sugar_ny_mais_pol_cents_lb"; "equivalente_vhp_reais_saca_pvu";
        "equivalente_vhp_cents_lb_pvu"; "equivalente_vhp_cents_lb_fob";
        "desenvolvimento" ]
  | CristalEsalq | ParidadeMiNy | CristalExportacao
  | CristalExportacaoMalha30 =>
      [ "equivalente_cristal_reais_saca_pvu"; "equivalente_vhp_reais_saca_pvu";
        "equivalente_vhp_cents_lb_pvu"; "equivalente_vhp_cents_lb_fob";
        "equivalente_cristal_cents_lb_pvu"; "equivalente_cristal_cents_lb_fob" ]
  | AnidroExportacao | HidratadoExportacao =>
      [ "preco_liquido_pvu"; "equivalente_vhp_reais_saca_pvu";
        "equivalente_vhp_cents_lb_pvu"; "equivalente_vhp_cents_lb_fob" ]
  | AnidroMercadoInterno =>
      [ "preco_liquido_pvu"; "cbio_liquido_impostos";
        "preco_liquido_pvu_mais_cbio"; "equivalente_hidratado";
        "equivalente_vhp_reais_saca_pvu"; "equivalente_vhp_cents_lb_pvu";
        "equivalente_vhp_cents_lb_fob"; "equivalente_cristal_cents_lb_pvu";
        "equivalente_cristal_reais_saca_pvu";
        "equivalente_cristal_cents_lb_fob" ]
  | HidratadoMercadoInterno =>
      [ "preco_liquido_pvu"; "preco_liquido_pvu_mais_cbio";
        "equivalente_anidro"; "preco_liquido_pvu_mais_cbio_mais_credito";
        "equivalente_vhp_reais_saca_pvu"; "equivalente_vhp_cents_lb_pvu";
        "equivalente_vhp_cents_lb_fob"; "equivalente_cristal_cents_lb_pvu";
        "equivalente_cristal_reais_saca_pvu";
        "equivalente_cristal_cents_lb_fob" ]
  end.

(** Replaces the stored values of a chain of [values[key] = v] by
    variables, for goals that are about the keys only. *)
Ltac forget_values :=
  repeat match goal with
  | |- context [<[_ := ?v]> _] =>
      tryif is_var v then fail else (generalize v; intros ?)
  end.

(** X1: whatever the two parameter dicts hold, the [values] dict a
    calculator returns is either empty, when the exchange rate is
    [<= 0], or has exactly the calculator's own set of keys; it is
    never filled in part. *)
Theorem values_all_or_nothing {A : Type} `{PyNumLaws A} (c : calculator)
  (inputs globais : gmap string A) :
  if (cambio_of globais <=? of_int 0)%py
  then values (calc c inputs globais) = ∅
  else dom (values (calc c inputs globais)) = list_to_set (chaves c).
Proof.
  destruct (cambio_of globais <=? of_int 0)%py eqn:Hc.
  - destruct c; unfold_calc; cbv zeta;
      rewrite run_valida_fail by exact Hc; reflexivity.
  - rewrite <- (list_to_set_perm_L (rev (chaves c)))
      by (symmetry; apply Permutation_rev).
    destruct c; unfold_calc; run_body; forget_values;
      rewrite !dom_insert_L, dom_empty_L;
      cbn [rev app chaves list_to_set]; exact eq_refl.
Qed.

Lemma values_all_or_nothing_witness :
  dom (values (calc AcucarVhp inputs_vhp_default globais_default))
    = list_to_set (chaves AcucarVhp)
  /\ values (calc AcucarVhp inputs_vhp_default
               {[ "cambio_brl_usd" := (-1)%float ]}) = ∅.
Proof.
  split.
  - exact (values_all_or_nothing (A:=float) AcucarVhp
             inputs_vhp_default globais_default).
  - exact (values_all_or_nothing (A:=float) AcucarVhp
             inputs_vhp_default {[ "cambio_brl_usd" := (-1)%float ]}).
Defined.


(** ** Açúcar VHP: ex-mill against FOB *)





(** ** Percentages given as whole numbers or as fractions *)







(** ** The two ethanol export calculators *)




(** ** The implicit arbitrage: Crystal less VHP, per pound ex-mill *)




(** ** An exchange rate that is not a number *)

Lemma div_nan_r (x : float) : (x / nan)%float = nan.
Proof.
  apply Prim2SF_inj. rewrite FloatAxioms.div_spec.
  change (Prim2SF nan) with S754_nan.
  unfold SF64div, SFdiv. destruct (Prim2SF x) as [[]|[]| |[] ? ?]; reflexivity.
Qed.

(** X6: the validation compares with [<=], which is false for NaN:
    with [cambio_brl_usd = nan] every calculator, whatever its other
    parameters, reports no error and stores NaN as its VHP per-pound
    ex-mill value. *)
Theorem cambio_nan_not_rejected (c : calculator)
  (inputs globais : gmap string float) :
  globais !! "cambio_brl_usd" = Some nan ->
  errors (calc c inputs globais) = []
  /\ values (calc c inputs globais) !! "equivalente_vhp_cents_lb_pvu"
     = Some (PyNum_ nan).
Proof.
  intros Hnan.
  assert (Hg : get globais "cambio_brl_usd" (of_int 1) = nan)
    by (apply get_lookup, Hnan).
  assert (Hc : (get globais "cambio_brl_usd" (of_int 1) <=? of_int 0)%py = false)
    by (rewrite Hg; reflexivity).
  split.
  - rewrite errors_of_calc. unfold cambio_of. rewrite Hc. reflexivity.
  - destruct c; unfold_calc; run_body; lookup_values;
      rewrite Hg; cbn [fdiv float_num]; rewrite !div_nan_r; reflexivity.
Qed.

Lemma cambio_nan_not_rejected_witness :
  errors (calc AcucarVhp inputs_vhp_default {[ "cambio_brl_usd" := nan ]}) = []
  /\ values (calc AcucarVhp inputs_vhp_default {[ "cambio_brl_usd" := nan ]})
       !! "equivalente_vhp_cents_lb_pvu" = Some (PyNum_ nan).
Proof.
  apply (cambio_nan_not_rejected AcucarVhp inputs_vhp_default
           {[ "cambio_brl_usd" := nan ]}).
  reflexivity.
Defined.

(** * The script around the calculators *)

(** The module-level code of [app_paridade_produtos.py] that prepares
    the parameter dicts from the sidebar widgets, runs the nine
    calculators, collects their errors and builds [dashboard_data]. *)
Module Script.

Section Script.
Context {A : Type} `{PyNum A}.

(** The values of the sidebar widgets, one field per script variable. *)
Record sidebar : Type := mkSidebar {
  cambio_brl_usd : A;
  acucar_ny_cents_lb : A;
  premio_desconto_vhp : A;
  premio_pol_vhp : A;
  custo_terminal_vhp_usd_ton : A;
  frete_vhp_brl_ton : A;
  preco_esalq_brl_saca : A;
  imposto_esalq : A;
  frete_santos_usina_brl_ton : A;
  custo_fobizacao_container_brl_ton : A;
  custo_vhp_para_cristal : A;
  premio_fisico_mi : A;
  premio_fisico_exportacao : A;
  premio_fisico_exportacao_malha30 : A;
  preco_anidro_fob_usd : A;
  frete_etanol_porto_usina : A;
  custo_terminal_etanol : A;
  custo_supervisao_documentos : A;
  custos_adicionais_demurrage : A;
  preco_hidratado_fob_usd : A;
  preco_anidro_com_impostos_brl : A;
  pis_cofins_brl : A;
  contribuicao_agroindustria : A;
  valor_cbio_bruto : A;
  preco_hidratado_com_impostos_brl : A;
  icms_percentual : A;
}.

(** [current_values], the dict the script saves. *)
Definition current_values (s : sidebar) : gmap string A :=
  list_to_map [
    ("cambio_brl_usd", cambio_brl_usd s);
    ("acucar_ny_cents_lb", acucar_ny_cents_lb s);
    ("premio_desconto_vhp", premio_desconto_vhp s);
    ("premio_pol_vhp", premio_pol_vhp s);
    ("custo_terminal_vhp_usd_ton", custo_terminal_vhp_usd_ton s);
    ("frete_vhp_brl_ton", frete_vhp_brl_ton s);
    ("preco_esalq_brl_saca", preco_esalq_brl_saca s);
    ("imposto_esalq", imposto_esalq s);
    ("frete_santos_usina_brl_ton", frete_santos_usina_brl_ton s);
    ("custo_fobizacao_container_brl_ton", custo_fobizacao_container_brl_ton s);
    ("custo_vhp_para_cristal", custo_vhp_para_cristal s);
    ("premio_fisico_mi", premio_fisico_mi s);
    ("premio_fisico_exportacao", premio_fisico_exportacao s);
    ("premio_fisico_exportacao_malha30", premio_fisico_exportacao_malha30 s);
    ("preco_anidro_fob_usd", preco_anidro_fob_usd s);
    ("frete_etanol_porto_usina", frete_etanol_porto_usina s);
    ("custo_terminal_etanol", custo_terminal_etanol s);
    ("custo_supervisao_documentos", custo_supervisao_documentos s);
    ("custos_adicionais_demurrage", custos_adicionais_demurrage s);
    ("preco_hidratado_fob_usd", preco_hidratado_fob_usd s);
    ("preco_anidro_com_impostos_brl", preco_anidro_com_impostos_brl s);
    ("pis_cofins_brl", pis_cofins_brl s);
    ("contribuicao_agroindustria", contribuicao_agroindustria s);
    ("valor_cbio_bruto", valor_cbio_bruto s);
    ("preco_hidratado_com_impostos_brl", preco_hidratado_com_impostos_brl s);
    ("icms_percentual", icms_percentual s) ].

(** ** Preparing the inputs *)

Definition inputs_acucar_vhp (s : sidebar) : gmap string A :=
  list_to_map [
    ("acucar_ny_cents_lb", acucar_ny_cents_lb s);
    ("premio_desconto", premio_desconto_vhp s);
    ("premio_pol", premio_pol_vhp s);
    ("custo_terminal_usd_ton", custo_terminal_vhp_usd_ton s);
    ("frete_brl_ton", frete_vhp_brl_ton s) ].

Definition globais (s : sidebar) : gmap string A :=
  list_to_map [
    ("cambio_brl_usd", cambio_brl_usd s);
    ("custo_terminal_usd_ton", custo_terminal_vhp_usd_ton s);
    ("frete_santos_usina_brl_ton", frete_santos_usina_brl_ton s);
    ("frete_brl_ton", frete_vhp_brl_ton s);
    ("custo_fobizacao_container_brl_ton", custo_fobizacao_container_brl_ton s);
    ("custo_vhp_para_cristal", custo_vhp_para_cristal s) ].

Definition inputs_acucar_cristal_esalq (s : sidebar) : gmap string A :=
  list_to_map [
    ("preco_esalq_brl_saca", preco_esalq_brl_saca s);
    ("imposto", imposto_esalq s);
    ("frete_santos_usina_brl_ton", frete_santos_usina_brl_ton s);
    ("custo_fobizacao_container_brl_ton", custo_fobizacao_container_brl_ton s);
    ("custo_vhp_para_cristal", custo_vhp_para_cristal s) ].

Definition inputs_paridade_mi_ny (s : sidebar) : gmap string A :=
  list_to_map [
    ("acucar_ny_cents_lb", acucar_ny_cents_lb s);
    ("premio_fisico_mi", premio_fisico_mi s) ].

Definition inputs_acucar_cristal_exportacao (s : sidebar) : gmap string A :=
  list_to_map [
    ("acucar_ny_cents_lb", acucar_ny_cents_lb s);
    ("premio_fisico_exportacao", premio_fisico_exportacao s) ].

Definition inputs_acucar_cristal_exportacao_malha30 (s : sidebar) : gmap string A :=
  list_to_map [
    ("acucar_ny_cents_lb", acucar_ny_cents_lb s);
    ("premio_fisico_exportacao_malha30", premio_fisico_exportacao_malha30 s) ].

Definition inputs_etanol_anidro_exportacao (s : sidebar) : gmap string A :=
  list_to_map [
    ("preco_anidro_fob_usd", preco_anidro_fob_usd s);
    ("frete_etanol_porto_usina", frete_etanol_porto_usina s);
    ("custo_terminal_etanol", custo_terminal_etanol s);
    ("custo_supervisao_documentos", custo_supervisao_documentos s);
    ("custos_adicionais_demurrage", custos_adicionais_demurrage s) ].

Definition inputs_etanol_hidratado_exportacao (s : sidebar) : gmap string A :=
  list_to_map [
    ("preco_hidratado_fob_usd", preco_hidratado_fob_usd s);
    ("frete_etanol_porto_usina", frete_etanol_porto_usina s);
    ("custo_terminal_etanol", custo_terminal_etanol s);
    ("custo_supervisao_documentos", custo_supervisao_documentos s);
    ("custos_adicionais_demurrage", custos_adicionais_demurrage s) ].

Definition inputs_etanol_anidro_mi (s : sidebar) : gmap string A :=
  list_to_map [
    ("preco_anidro_com_impostos_brl", preco_anidro_com_impostos_brl s);
    ("pis_cofins_brl", pis_cofins_brl s);
    ("contribuicao_agroindustria", contribuicao_agroindustria s);
    ("valor_cbio_bruto", valor_cbio_bruto s) ].

(** [globais.copy()] followed by the two item assignments. *)
Definition globais_mi (s : sidebar) : gmap string A :=
  <["custo_fobizacao_container_brl_ton" := custo_fobizacao_container_brl_ton s]>
    (<["premio_fisico_mi" := premio_fisico_mi s]> (globais s)).

Definition inputs_etanol_hidratado_mi (s : sidebar) : gmap string A :=
  list_to_map [
    ("preco_hidratado_com_impostos_brl", preco_hidratado_com_impostos_brl s);
    ("pis_cofins_brl", pis_cofins_brl s);
    ("icms_percentual", icms_percentual s);
    ("contribuicao_agroindustria", contribuicao_agroindustria s);
    ("valor_cbio_bruto", valor_cbio_bruto s) ].

(** ** Running the calculators *)

Definition result_acucar_vhp (s : sidebar) : Result A :=
  calc_acucar_vhp_detalhado (inputs_acucar_vhp s) (globais s).
Definition result_acucar_cristal_esalq (s : sidebar) : Result A :=
  calc_acucar_cristal_esalq (inputs_acucar_cristal_esalq s) (globais s).
Definition result_paridade_mi_ny (s : sidebar) : Result A :=
  calc_paridade_comercializacao_mi_ny (inputs_paridade_mi_ny s) (globais s).
Definition result_acucar_cristal_exportacao (s : sidebar) : Result A :=
  calc_acucar_cristal_exportacao (inputs_acucar_cristal_exportacao s) (globais s).
Definition result_acucar_cristal_exportacao_malha30 (s : sidebar) : Result A :=
  calc_acucar_cristal_exportacao_malha30
    (inputs_acucar_cristal_exportacao_malha30 s) (globais s).
Definition result_etanol_anidro_exportacao (s : sidebar) : Result A :=
  calc_etanol_anidro_exportacao (inputs_etanol_anidro_exportacao s) (globais s).
Definition result_etanol_hidratado_exportacao (s : sidebar) : Result A :=
  calc_etanol_hidratado_exportacao
    (inputs_etanol_hidratado_exportacao s) (globais s).
Definition result_etanol_anidro_mi (s : sidebar) : Result A :=
  calc_etanol_anidro_mercado_interno (inputs_etanol_anidro_mi s) (globais_mi s).
Definition result_etanol_hidratado_mi (s : sidebar) : Result A :=
  calc_etanol_hidratado_mercado_interno
    (inputs_etanol_hidratado_mi s) (globais_mi s).

(** The nine results by calculator. *)
Definition result_of (c : calculator) (s : sidebar) : Result A :=
  match c with
  | AcucarVhp => result_acucar_vhp s
  | CristalEsalq => result_acucar_cristal_esalq s
  | ParidadeMiNy => result_paridade_mi_ny s
  | CristalExportacao => result_acucar_cristal_exportacao s
  | CristalExportacaoMalha30 => result_acucar_cristal_exportacao_malha30 s
  | AnidroExportacao => result_etanol_anidro_exportacao s
  | HidratadoExportacao => result_etanol_hidratado_exportacao s
  | AnidroMercadoInterno => result_etanol_anidro_mi s
  | HidratadoMercadoInterno => result_etanol_hidratado_mi s
  end.

(** ** Collecting the errors *)

Definition all_errors (s : sidebar) : list string :=
  errors (result_acucar_vhp s)
  ++ errors (result_acucar_cristal_esalq s)
  ++ errors (result_paridade_mi_ny s)
  ++ errors (result_acucar_cristal_exportacao s)
  ++ errors (result_acucar_cristal_exportacao_malha30 s)
  ++ errors (result_etanol_anidro_exportacao s)
  ++ errors (result_etanol_hidratado_exportacao s)
  ++ errors (result_etanol_anidro_mi s)
  ++ errors (result_etanol_hidratado_mi s).

(** ** Building [dashboard_data] *)

(** One row of [dashboard_data]; a cell is [None] or what
    [v.get(key, 0)] returned. *)
Record row : Type := mkRow {
  Produto : string;
  Categoria : string;
  Tipo : string;
  VHP_saca_PVU : option (pyval A);
  VHP_lb_PVU : option (pyval A);
  VHP_lb_FOB : option (pyval A);
  Cristal_saca_PVU : option (pyval A);
  Cristal_lb_PVU : option (pyval A);
  Cristal_lb_FOB : option (pyval A);
}.

(** [v.get(key, 0)] on a [values] dict. *)
Definition vget (v : gmap string (pyval A)) (key : string) : pyval A :=
  default (PyNum_ (of_int 0)) (v !! key).

(** Truth value of a dict: it is not empty. *)
Definition dict_truthy {V} (d : gmap string V) : bool :=
  negb (Nat.eqb (size d) 0).

(** A row of category VHP: the three Crystal cells are [None]. *)
Definition row_vhp (produto tipo : string) (v : gmap string (pyval A)) : row :=
  mkRow produto "VHP" tipo
    (Some (vget v "equivalente_vhp_reais_saca_pvu"))
    (Some (vget v "equivalente_vhp_cents_lb_pvu"))
    (Some (vget v "equivalente_vhp_cents_lb_fob"))
    None None None.

(** A row of category Cristal. *)
Definition row_cristal (produto tipo : string) (v : gmap string (pyval A))
  : row :=
  mkRow produto "Cristal" tipo
    (Some (vget v "equivalente_vhp_reais_saca_pvu"))
    (Some (vget v "equivalente_vhp_cents_lb_pvu"))
    (Some (vget v "equivalente_vhp_cents_lb_fob"))
    (Some (vget v "equivalente_cristal_reais_saca_pvu"))
    (Some (vget v "equivalente_cristal_cents_lb_pvu"))
    (Some (vget v "equivalente_cristal_cents_lb_fob")).

(** [if result.get('values'): dashboard_data.append(row)] *)
Definition append_if (r : Result A) (mk : gmap string (pyval A) -> row)
  (dashboard_data : list row) : list row :=
  if dict_truthy (values r) then dashboard_data ++ [mk (values r)]
  else dashboard_data.

Definition dashboard_data (s : sidebar) : list row :=
  let d := [] in
  let d := append_if (result_acucar_vhp s) (row_vhp "Açúcar VHP" "Açúcar") d in
  let d := append_if (result_acucar_cristal_esalq s)
             (row_cristal "Açúcar Cristal ESALQ" "Açúcar") d in
  let d := append_if (result_paridade_mi_ny s)
             (row_cristal "Açúcar Cristal MI" "Açúcar") d in
  let d := append_if (result_acucar_cristal_exportacao s)
             (row_cristal "Açúcar Cristal Exportação" "Açúcar") d in
  let d := append_if (result_acucar_cristal_exportacao_malha30 s)
             (row_cristal "Açúcar Cristal Exportação Malha 30" "Açúcar") d in
  let d := append_if (result_etanol_anidro_exportacao s)
             (row_vhp "Etanol Anidro Exportação" "Etanol") d in
  let d := append_if (result_etanol_hidratado_exportacao s)
             (row_vhp "Etanol Hidratado Exportação" "Etanol") d in
  let d := append_if (result_etanol_anidro_mi s)
             (row_cristal "Etanol Anidro MI" "Etanol") d in
  let d := append_if (result_etanol_hidratado_mi s)
             (row_cristal "Etanol Hidratado MI" "Etanol") d in
  d.

End Script.

Arguments sidebar A : clear implicits.
Arguments row A : clear implicits.

(** ** All nine products or none *)

(** The script's names of the results, read as [result_of]. *)
Ltac fold_results :=
  change (result_acucar_vhp ?s) with (result_of AcucarVhp s);
  change (result_acucar_cristal_esalq ?s) with (result_of CristalEsalq s);
  change (result_paridade_mi_ny ?s) with (result_of ParidadeMiNy s);
  change (result_acucar_cristal_exportacao ?s)
    with (result_of CristalExportacao s);
  change (result_acucar_cristal_exportacao_malha30 ?s)
    with (result_of CristalExportacaoMalha30 s);
  change (result_etanol_anidro_exportacao ?s)
    with (result_of AnidroExportacao s);
  change (result_etanol_hidratado_exportacao ?s)
    with (result_of HidratadoExportacao s);
  change (result_etanol_anidro_mi ?s) with (result_of AnidroMercadoInterno s);
  change (result_etanol_hidratado_mi ?s)
    with (result_of HidratadoMercadoInterno s).

Section ScriptProperties.
Context {A : Type} `{PyNumLaws A}.
Local Open Scope py_scope.

(** The calculators in the order the script runs and displays them. *)
Definition todos : list calculator := [
  AcucarVhp; CristalEsalq; ParidadeMiNy; CristalExportacao;
  CristalExportacaoMalha30; AnidroExportacao; HidratadoExportacao;
  AnidroMercadoInterno; HidratadoMercadoInterno ].

(** The dicts each calculator is called with. *)
Definition inputs_of (c : calculator) (s : sidebar A) : gmap string A :=
  match c with
  | AcucarVhp => inputs_acucar_vhp s
  | CristalEsalq => inputs_acucar_cristal_esalq s
  | ParidadeMiNy => inputs_paridade_mi_ny s
  | CristalExportacao => inputs_acucar_cristal_exportacao s
  | CristalExportacaoMalha30 => inputs_acucar_cristal_exportacao_malha30 s
  | AnidroExportacao => inputs_etanol_anidro_exportacao s
  | HidratadoExportacao => inputs_etanol_hidratado_exportacao s
  | AnidroMercadoInterno => inputs_etanol_anidro_mi s
  | HidratadoMercadoInterno => inputs_etanol_hidratado_mi s
  end.

Definition globais_of (c : calculator) (s : sidebar A) : gmap string A :=
  match c with
  | AnidroMercadoInterno | HidratadoMercadoInterno => globais_mi s
  | _ => globais s
  end.

Lemma result_of_calc (c : calculator) (s : sidebar A) :
  result_of c s = calc c (inputs_of c s) (globais_of c s).
Proof. destruct c; exact eq_refl. Qed.

Lemma cambio_globais_of (c : calculator) (s : sidebar A) :
  cambio_of (globais_of c s) = cambio_brl_usd s.
Proof. destruct c; vm_compute; exact eq_refl. Qed.

Lemma errors_result_of (c : calculator) (s : sidebar A) :
  errors (result_of c s)
  = if cambio_brl_usd s <=? of_int 0 then [cambio_msg] else [].
Proof.
  rewrite result_of_calc, <- (cambio_globais_of c s). apply errors_of_calc.
Qed.

Lemma chaves_vhp_pvu (c : calculator) :
  "equivalente_vhp_cents_lb_pvu" ∈ chaves c.
Proof.
  destruct c; cbn [chaves];
    repeat first [ apply list_elem_of_here | apply list_elem_of_further ].
Qed.

Lemma stored_key (c : calculator) (inputs globais : gmap string A) (k : string) :
  (cambio_of globais <=? of_int 0) = false ->
  k ∈ chaves c -> is_Some (values (calc c inputs globais) !! k).
Proof.
  intros Hc Hk. pose proof (values_all_or_nothing c inputs globais) as Hdom.
  rewrite Hc in Hdom. apply elem_of_dom. rewrite Hdom.
  apply elem_of_list_to_set, Hk.
Qed.

Lemma truthy_result_of (c : calculator) (s : sidebar A) :
  dict_truthy (values (result_of c s)) = negb (cambio_brl_usd s <=? of_int 0).
Proof.
  rewrite result_of_calc, <- (cambio_globais_of c s).
  generalize (inputs_of c s) (globais_of c s). intros i g.
  pose proof (values_all_or_nothing c i g) as Hdom.
  unfold dict_truthy. destruct (cambio_of g <=? of_int 0) eqn:Hc.
  - rewrite Hdom, map_size_empty. reflexivity.
  - destruct (stored_key c i g _ Hc (chaves_vhp_pvu c)) as [v Hv].
    destruct (size (values (calc c i g))) eqn:Hsize; [|reflexivity].
    apply map_size_empty_iff in Hsize. rewrite Hsize, lookup_empty in Hv.
    discriminate.
Qed.

(** X7: the nine calculators of one run succeed or fail together.
    With an exchange rate [<= 0] the script collects the validation
    message nine times and [dashboard_data] stays empty; otherwise it
    collects no error and [dashboard_data] holds the nine products in
    the order of the script. *)
Theorem script_all_or_nothing (s : sidebar A) :
  if cambio_brl_usd s <=? of_int 0
  then all_errors s = replicate 9 "Câmbio deve ser maior que zero"
       /\ dashboard_data s = []
  else all_errors s = []
       /\ Produto <$> dashboard_data s
          = [ "Açúcar VHP"; "Açúcar Cristal ESALQ"; "Açúcar Cristal MI";
              "Açúcar Cristal Exportação";
              "Açúcar Cristal Exportação Malha 30";
              "Etanol Anidro Exportação"; "Etanol Hidratado Exportação";
              "Etanol Anidro MI"; "Etanol Hidratado MI" ].
Proof.
  unfold all_errors, dashboard_data, append_if. cbv zeta. fold_results.
  rewrite !errors_result_of, !truthy_result_of.
  destruct (cambio_brl_usd s <=? of_int 0); split; reflexivity.
Qed.

(** ** What the dashboard shows *)

(** Replaces the scalars stored in a chain of [values[key] = v] by
    variables; the breakdown dict of the VHP calculator too. *)
Ltac forget_numbers :=
  repeat match goal with
  | |- context [PyNum_ ?x] =>
      tryif is_var x then fail else (generalize x; intros ?)
  | |- context [<["desenvolvimento" := ?v]> _] =>
      tryif is_var v then fail else (generalize v; intros ?)
  end.

(** Every key a calculator stores, the breakdown apart, holds a
    scalar. *)
Lemma stored_number (c : calculator) (inputs globais : gmap string A)
  (k : string) :
  (cambio_of globais <=? of_int 0) = false ->
  k ∈ chaves c -> k <> "desenvolvimento" ->
  exists x, values (calc c inputs globais) !! k = Some (PyNum_ x).
Proof.
  intros Hc Hk Hd.
  destruct c; cbn [chaves] in Hk; unfold_calc; run_body; forget_numbers;
    repeat (apply elem_of_cons in Hk as [-> | Hk]);
    try (apply elem_of_nil in Hk; contradiction);
    try congruence;
    eexists; lookup_values; reflexivity.
Qed.

(** The calculators whose row has category Cristal. *)
Definition categoria_cristal (c : calculator) : bool :=
  match c with
  | AcucarVhp | AnidroExportacao | HidratadoExportacao => false
  | _ => true
  end.

(** A cell that shows the scalar stored under [key]. *)
Definition shows (v : gmap string (pyval A)) (key : string)
  (cell : option (pyval A)) : Prop :=
  cell = v !! key /\ exists x, cell = Some (PyNum_ x).

Lemma shows_vget (c : calculator) (s : sidebar A) (k : string) :
  (cambio_brl_usd s <=? of_int 0) = false ->
  k ∈ chaves c -> k <> "desenvolvimento" ->
  shows (values (result_of c s)) k (Some (vget (values (result_of c s)) k)).
Proof.
  intros Hc Hk Hd. rewrite result_of_calc.
  rewrite <- (cambio_globais_of c s) in Hc.
  destruct (stored_number c (inputs_of c s) _ k Hc Hk Hd) as [x Hx].
  unfold shows, vget. rewrite Hx. split; [reflexivity|]. exists x. reflexivity.
Qed.

(** X8: when the exchange rate passes validation, the nine rows of
    [dashboard_data] are those of the nine calculators, in order; each
    VHP cell of a row is the scalar its calculator stored under the
    corresponding key, so the fallback [0] of [v.get(key, 0)] is never
    shown; the Crystal cells are the stored scalars in the six rows of
    category Cristal and [None] in the three rows of category VHP. *)
Theorem dashboard_shows_stored_values (s : sidebar A) :
  (of_int 0 <? cambio_brl_usd s) = true ->
  Forall2 (fun c r =>
      let v := values (result_of c s) in
      shows v "equivalente_vhp_reais_saca_pvu" (VHP_saca_PVU r)
      /\ shows v "equivalente_vhp_cents_lb_pvu" (VHP_lb_PVU r)
      /\ shows v "equivalente_vhp_cents_lb_fob" (VHP_lb_FOB r)
      /\ if categoria_cristal c
         then Categoria r = "Cristal"
              /\ shows v "equivalente_cristal_reais_saca_pvu" (Cristal_saca_PVU r)
              /\ shows v "equivalente_cristal_cents_lb_pvu" (Cristal_lb_PVU r)
              /\ shows v "equivalente_cristal_cents_lb_fob" (Cristal_lb_FOB r)
         else Categoria r = "VHP"
              /\ Cristal_saca_PVU r = None /\ Cristal_lb_PVU r = None
              /\ Cristal_lb_FOB r = None)
    todos (dashboard_data s).
Proof.
  intros Hc%pos_not_le0.
  unfold dashboard_data, append_if. cbv zeta. fold_results.
  rewrite !truthy_result_of, Hc. cbn [negb app].
  unfold todos.
  repeat apply Forall2_cons_2; try apply Forall2_nil_2;
    cbv zeta; cbn [categoria_cristal row_vhp row_cristal VHP_saca_PVU
      VHP_lb_PVU VHP_lb_FOB Cristal_saca_PVU Cristal_lb_PVU Cristal_lb_FOB
      Categoria];
    repeat split;
    apply shows_vget; try exact Hc; try discriminate;
    cbn [chaves];
    repeat first [ apply list_elem_of_here | apply list_elem_of_further ].
Qed.

End ScriptProperties.

(** The sidebar at its default values, in binary64. *)
Definition sidebar_default : sidebar float :=
  (mkSidebar 5.35 15.8 (-0.1) 4.2 12.5 202.0 115.67 9.85 202.0 198.0 9.25
     0.0 0.0 0.0 0.0 0.0 0.0 0.0 0.0 0.0 0.0 0.0 0.0 0.0 0.0 0.0)%float.

Lemma script_all_or_nothing_witness :
  all_errors sidebar_default = []
  /\ length (dashboard_data sidebar_default) = 9%nat.
Proof.
  pose proof (script_all_or_nothing sidebar_default) as Hs.
  change (cambio_brl_usd sidebar_default <=? of_int 0)%py with false in Hs.
  destruct Hs as [He Hp]. split; [exact He|].
  apply (f_equal length) in Hp. rewrite length_fmap in Hp. exact Hp.
Defined.

Lemma dashboard_shows_stored_values_witness :
  Forall2 (fun c r =>
      VHP_saca_PVU r
      = values (result_of c sidebar_default) !! "equivalente_vhp_reais_saca_pvu")
    todos (dashboard_data sidebar_default).
Proof.
  eapply Forall2_impl;
    [exact (dashboard_shows_stored_values sidebar_default eq_refl)|].
  intros c r Hr. exact (proj1 (proj1 Hr)).
Defined.

(** ** The spread between FOB and ex-mill, across products *)






(** ** Filtering the products *)

Section Filter.
Context {A : Type} `{PyNum A}.

(** [dashboard_data_filtrado]: the rows whose product was selected, or
    every row when the selection is empty. *)
Definition dashboard_data_filtrado (produtos_filtrados : list string)
  (dashboard_data : list (row A)) : list (row A) :=
  match produtos_filtrados with
  | [] => dashboard_data
  | _ => filter (fun d => Produto d ∈ produtos_filtrados) dashboard_data
  end.

(** [[(d['Produto'], d['VHP R$/saca PVU']) for d in ... if ... is not None]] *)
Definition vhp_saca_list (filtrado : list (row A)) : list (string * pyval A) :=
  omap (fun d => pair (Produto d) <$> VHP_saca_PVU d) filtrado.

Definition cristal_saca_list (filtrado : list (row A))
  : list (string * pyval A) :=
  omap (fun d => pair (Produto d) <$> Cristal_saca_PVU d) filtrado.

(** The pairs of a list whose value is a scalar. *)
Definition escalares (l : list (string * pyval A)) : list (string * A) :=
  omap (fun pv => match pv.2 with
                  | PyNum_ x => Some (pv.1, x)
                  | _ => None
                  end) l.

(** The products, and those of category Cristal. *)
Definition nomes : list string := [
  "Açúcar VHP"; "Açúcar Cristal ESALQ"; "Açúcar Cristal MI";
  "Açúcar Cristal Exportação"; "Açúcar Cristal Exportação Malha 30";
  "Etanol Anidro Exportação"; "Etanol Hidratado Exportação";
  "Etanol Anidro MI"; "Etanol Hidratado MI" ].

Definition nomes_cristal : list string := [
  "Açúcar Cristal ESALQ"; "Açúcar Cristal MI"; "Açúcar Cristal Exportação";
  "Açúcar Cristal Exportação Malha 30"; "Etanol Anidro MI";
  "Etanol Hidratado MI" ].

(** A row as the script builds it on success. *)
Definition row_ok (d : row A) : Prop :=
  (exists x, VHP_saca_PVU d = Some (PyNum_ x))
  /\ if decide (Produto d ∈ nomes_cristal)
     then exists x, Cristal_saca_PVU d = Some (PyNum_ x)
     else Cristal_saca_PVU d = None.

Lemma filtrado_products (sel : list string) (data : list (row A)) :
  Produto <$> dashboard_data_filtrado sel data
  = match sel with
    | [] => Produto <$> data
    | _ => filter (fun p => p ∈ sel) (Produto <$> data)
    end.
Proof.
  unfold dashboard_data_filtrado. destruct sel as [|p sel]; [reflexivity|].
  generalize (p :: sel). intros l.
  induction data as [|d data IH]; [reflexivity|].
  rewrite fmap_cons, !filter_cons.
  destruct (decide (Produto d ∈ l)); [rewrite fmap_cons|]; rewrite IH;
    reflexivity.
Qed.

Lemma filtrado_ok (sel : list string) (data : list (row A)) :
  Forall row_ok data -> Forall row_ok (dashboard_data_filtrado sel data).
Proof.
  intros Hd. unfold dashboard_data_filtrado. destruct sel; [exact Hd|].
  rewrite Forall_forall in *. intros d Hin.
  apply list_elem_of_filter in Hin as [_ Hin]. apply Hd, Hin.
Qed.

Lemma lists_of_ok_rows (f : list (row A)) :
  Forall row_ok f ->
  fst <$> escalares (vhp_saca_list f) = Produto <$> f
  /\ length (escalares (vhp_saca_list f)) = length (vhp_saca_list f)
  /\ fst <$> escalares (cristal_saca_list f)
     = filter (fun p => p ∈ nomes_cristal) (Produto <$> f)
  /\ length (escalares (cristal_saca_list f)) = length (cristal_saca_list f).
Proof.
  induction 1 as [|d f [[x Hx] Hc] Hf (IH1 & IH2 & IH3 & IH4)];
    [repeat split; reflexivity|].
  unfold vhp_saca_list, cristal_saca_list, escalares in *.
  rewrite fmap_cons, filter_cons. cbn [omap list_omap].
  rewrite Hx. cbn [fmap option_fmap option_map snd fst omap list_omap].
  destruct (decide (Produto d ∈ nomes_cristal)).
  - destruct Hc as [y Hy]. rewrite Hy.
    cbn [fmap option_fmap option_map snd fst omap list_omap length].
    rewrite ?fmap_cons. cbn [fst]. repeat split; congruence.
  - rewrite Hc.
    cbn [fmap option_fmap option_map snd fst omap list_omap length].
    rewrite ?fmap_cons. cbn [fst]. repeat split; congruence.
Qed.

End Filter.

Section FilterScript.
Context {A : Type} `{PyNumLaws A}.
Local Open Scope py_scope.

Lemma dashboard_data_rows_ok (s : sidebar A) :
  (cambio_brl_usd s <=? of_int 0) = false ->
  Forall row_ok (dashboard_data s).
Proof.
  intros Hc.
  unfold dashboard_data, append_if. cbv zeta. fold_results.
  rewrite !truthy_result_of, Hc. cbn [negb app].
  assert (Hnum : forall c k, k ∈ chaves c -> k <> "desenvolvimento" ->
            exists x, Some (vget (values (result_of c s)) k) = Some (PyNum_ x)).
  { intros c k Hk Hd. exact (proj2 (shows_vget c s k Hc Hk Hd)). }
  repeat apply Forall_cons_2; try apply Forall_nil_2;
    (split;
     [ cbn [row_vhp row_cristal VHP_saca_PVU]; apply Hnum;
       [ cbn [chaves];
         repeat first [ apply list_elem_of_here | apply list_elem_of_further ]
       | discriminate ]
     | cbn [row_vhp row_cristal Produto Cristal_saca_PVU];
       destruct (decide _) as [Hin | Hout];
       [ first
           [ apply Hnum;
             [ cbn [chaves];
               repeat first
                 [ apply list_elem_of_here | apply list_elem_of_further ]
             | discriminate ]
           | exfalso; unfold nomes_cristal in Hin;
             repeat (apply elem_of_cons in Hin as [Hin | Hin];
                     [discriminate|]);
             apply elem_of_nil in Hin; exact Hin ]
       | first
           [ reflexivity
           | exfalso; apply Hout; unfold nomes_cristal;
             repeat first
               [ apply list_elem_of_here | apply list_elem_of_further ] ] ] ]).
Qed.

(** X10: when the exchange rate passes validation, an empty selection
    in the product filter shows all nine products and a selection
    that is not empty shows the selected ones, in the order of the
    dashboard; names that are no product are ignored.  The VHP ranking
    receives one scalar for each product shown, the Crystal ranking
    one scalar for each product shown of category Cristal and nothing
    for the three products of category VHP. *)
Theorem filtered_lists (s : sidebar A) (produtos_filtrados : list string) :
  (of_int 0 <? cambio_brl_usd s) = true ->
  let f := dashboard_data_filtrado produtos_filtrados (dashboard_data s) in
  let shown :=
    match produtos_filtrados with
    | [] => nomes
    | _ => filter (fun p => p ∈ produtos_filtrados) nomes
    end in
  Produto <$> f = shown
  /\ fst <$> escalares (vhp_saca_list f) = shown
  /\ length (escalares (vhp_saca_list f)) = length (vhp_saca_list f)
  /\ fst <$> escalares (cristal_saca_list f)
     = filter (fun p => p ∈ nomes_cristal) shown
  /\ length (escalares (cristal_saca_list f)) = length (cristal_saca_list f).
Proof.
  intros Hc%pos_not_le0 f shown.
  assert (Hshown : Produto <$> f = shown).
  { subst f shown. rewrite filtrado_products.
    pose proof (script_all_or_nothing s) as Hs. rewrite Hc in Hs.
    destruct Hs as [_ ->]. reflexivity. }
  destruct (lists_of_ok_rows f) as (H1 & H2 & H3 & H4).
  { apply filtrado_ok, dashboard_data_rows_ok, Hc. }
  rewrite <- Hshown. auto.
Qed.

End FilterScript.

Lemma filtered_lists_witness :
  Produto <$> dashboard_data_filtrado [] (dashboard_data sidebar_default) = nomes
  /\ Produto <$> dashboard_data_filtrado ["Etanol Anidro MI"; "Açúcar VHP"; "Milho"]
                   (dashboard_data sidebar_default)
     = ["Açúcar VHP"; "Etanol Anidro MI"].
Proof.
  split.
  - exact (proj1 (filtered_lists sidebar_default [] eq_refl)).
  - exact (proj1 (filtered_lists sidebar_default
                    ["Etanol Anidro MI"; "Açúcar VHP"; "Milho"] eq_refl)).
Defined.

(** ** Saved parameters *)

(** The functions [load_sidebar_config] and [save_sidebar_config] and
    the module-level code that calls them.  The file
    [sidebar_config.json] is part of the state; what the file system
    does to a write is a parameter of the write. *)

Section Config.
Context {A : Type} `{PyNum A}.

(** [sidebar_config.json] as [load_sidebar_config] meets it: absent;
    present but such that [open] or [json.load] raises; or holding a
    JSON object.  (A file whose JSON is not an object is not
    modelled.) *)
Inductive arquivo : Type :=
  | Ausente
  | Ilegivel
  | Objeto (saved_values : gmap string (pyval A)).

Definition default_values : gmap string (pyval A) :=
  list_to_map [
    ("cambio_brl_usd", PyNum_ (dec 535 2));
    ("acucar_ny_cents_lb", PyNum_ (dec 158 1));
    ("premio_desconto_vhp", PyNum_ (dec (-1) 1));
    ("premio_pol_vhp", PyNum_ (dec 42 1));
    ("custo_terminal_vhp_usd_ton", PyNum_ (dec 125 1));
    ("frete_vhp_brl_ton", PyNum_ (of_int 202));
    ("preco_esalq_brl_saca", PyNum_ (dec 11567 2));
    ("imposto_esalq", PyNum_ (dec 985 2));
    ("frete_santos_usina_brl_ton", PyNum_ (of_int 202));
    ("custo_fobizacao_container_brl_ton", PyNum_ (of_int 198));
    ("custo_vhp_para_cristal", PyNum_ (dec 925 2));
    ("premio_fisico_mi", PyNum_ (of_int 0));
    ("premio_fisico_exportacao", PyNum_ (of_int 0));
    ("premio_fisico_exportacao_malha30", PyNum_ (of_int 0));
    ("preco_anidro_fob_usd", PyNum_ (of_int 0));
    ("frete_etanol_porto_usina", PyNum_ (of_int 0));
    ("custo_terminal_etanol", PyNum_ (of_int 0));
    ("custo_supervisao_documentos", PyNum_ (of_int 0));
    ("custos_adicionais_demurrage", PyNum_ (of_int 0));
    ("preco_hidratado_fob_usd", PyNum_ (of_int 0));
    ("preco_anidro_com_impostos_brl", PyNum_ (of_int 0));
    ("pis_cofins_brl", PyNum_ (of_int 0));
    ("contribuicao_agroindustria", PyNum_ (of_int 0));
    ("valor_cbio_bruto", PyNum_ (of_int 0));
    ("preco_hidratado_com_impostos_brl", PyNum_ (of_int 0));
    ("icms_percentual", PyNum_ (of_int 0)) ].

(** [load_sidebar_config]: [default_values.update(saved_values)] when
    the file exists and loads; the defaults, after a warning, when
    loading raises; the defaults when there is no file. *)
Definition load_sidebar_config (f : arquivo) : gmap string (pyval A) :=
  match f with
  | Ausente => default_values
  | Ilegivel => default_values
  | Objeto saved_values => saved_values ∪ default_values
  end.

(** The keys the widgets of the sidebar read from [saved_config], each
    with the fallback written at the widget:
    [value=saved_config.get(key, fallback)]. *)
Definition fallbacks : list (string * A) := [
  ("cambio_brl_usd", dec 535 2);
  ("acucar_ny_cents_lb", dec 158 1);
  ("premio_desconto_vhp", dec (-1) 1);
  ("premio_pol_vhp", dec 42 1);
  ("custo_terminal_vhp_usd_ton", dec 125 1);
  ("frete_vhp_brl_ton", of_int 202);
  ("preco_esalq_brl_saca", dec 11567 2);
  ("imposto_esalq", dec 985 2);
  ("frete_santos_usina_brl_ton", of_int 202);
  ("custo_fobizacao_container_brl_ton", of_int 198);
  ("custo_vhp_para_cristal", dec 925 2);
  ("premio_fisico_mi", of_int 0);
  ("premio_fisico_exportacao", of_int 0);
  ("premio_fisico_exportacao_malha30", of_int 0);
  ("preco_anidro_fob_usd", of_int 0);
  ("frete_etanol_porto_usina", of_int 0);
  ("custo_terminal_etanol", of_int 0);
  ("custo_supervisao_documentos", of_int 0);
  ("custos_adicionais_demurrage", of_int 0);
  ("preco_hidratado_fob_usd", of_int 0);
  ("preco_anidro_com_impostos_brl", of_int 0);
  ("pis_cofins_brl", of_int 0);
  ("contribuicao_agroindustria", of_int 0);
  ("valor_cbio_bruto", of_int 0);
  ("preco_hidratado_com_impostos_brl", of_int 0);
  ("icms_percentual", of_int 0) ].

(** What happens to the write of [save_sidebar_config]: it goes
    through; [open] raises and the file stays as it was; or
    [json.dump] raises after [open] has truncated the file, which
    leaves a text that is no JSON value. *)
Inductive escrita : Type := Escreve | Falha_ao_abrir | Falha_ao_escrever.

(** [save_sidebar_config]: the exception of a failed write is caught
    and reported, not raised. *)
Definition save_sidebar_config (values : gmap string A) (e : escrita)
  (f : arquivo) : arquivo :=
  match e with
  | Escreve => Objeto (PyNum_ <$> values)
  | Falha_ao_abrir => f
  | Falha_ao_escrever => Ilegivel
  end.

(** [d1 == d2] on dicts of scalars: the same keys, with values that
    are [==]. *)
Definition dict_eqb (d1 d2 : gmap string A) : bool :=
  bool_decide (dom d1 = dom d2)
  && forallb (fun kv : string * A =>
                match d2 !! kv.1 with
                | Some w => feqb kv.2 w
                | None => false
                end) (map_to_list d1).

(** [st.session_state.last_saved_values], when set, and the file. *)
Record sessao : Type := mkSessao {
  last_saved_values : option (gmap string A);
  sidebar_config : arquivo;
}.

(** The last statement of the sidebar block:
    [if 'last_saved_values' not in st.session_state or
        st.session_state.last_saved_values != current_values:
       save_sidebar_config(current_values)
       st.session_state.last_saved_values = current_values] *)
Definition salva_se_mudou (s : sidebar A) (e : escrita) (st : sessao)
  : sessao :=
  let mudou :=
    match last_saved_values st with
    | None => true
    | Some l => negb (dict_eqb l (current_values s))
    end in
  if mudou
  then mkSessao (Some (current_values s))
         (save_sidebar_config (current_values s) e (sidebar_config st))
  else st.

(** The scalars of the sidebar, in the order of [current_values]. *)
Definition campos (s : sidebar A) : list A := [
  cambio_brl_usd s; acucar_ny_cents_lb s; premio_desconto_vhp s;
  premio_pol_vhp s; custo_terminal_vhp_usd_ton s; frete_vhp_brl_ton s;
  preco_esalq_brl_saca s; imposto_esalq s; frete_santos_usina_brl_ton s;
  custo_fobizacao_container_brl_ton s; custo_vhp_para_cristal s;
  premio_fisico_mi s; premio_fisico_exportacao s;
  premio_fisico_exportacao_malha30 s; preco_anidro_fob_usd s;
  frete_etanol_porto_usina s; custo_terminal_etanol s;
  custo_supervisao_documentos s; custos_adicionais_demurrage s;
  preco_hidratado_fob_usd s; preco_anidro_com_impostos_brl s;
  pis_cofins_brl s; contribuicao_agroindustria s; valor_cbio_bruto s;
  preco_hidratado_com_impostos_brl s; icms_percentual s ].

Lemma default_values_fallbacks :
  Forall (fun kf : string * A => default_values !! kf.1 = Some (PyNum_ kf.2))
    fallbacks.
Proof.
  unfold fallbacks.
  repeat apply Forall_cons_2; try apply Forall_nil_2;
    vm_compute; exact eq_refl.
Qed.

(** X11: whatever the state of [sidebar_config.json], each of the 26
    widgets of the sidebar starts at the value the file holds for its
    key, when the file loads and has the key, and otherwise at the
    fallback written at the widget: the defaults of
    [load_sidebar_config] and the fallbacks of the widgets agree, and
    a file that is missing, unreadable or incomplete costs no
    parameter its value. *)
Theorem widgets_start_at_saved_or_default (f : arquivo) :
  Forall (fun kf : string * A =>
      get (load_sidebar_config f) kf.1 (PyNum_ kf.2)
      = match f with
        | Objeto saved_values => get saved_values kf.1 (PyNum_ kf.2)
        | _ => PyNum_ kf.2
        end)
    fallbacks.
Proof.
  eapply Forall_impl; [exact default_values_fallbacks|].
  intros [k fb] Hk. cbn [fst snd] in *. unfold get.
  destruct f as [| |d]; cbn [load_sidebar_config];
    [rewrite Hk; reflexivity..|].
  rewrite lookup_union, Hk. destruct (d !! k); reflexivity.
Qed.

Lemma current_values_lookup (s : sidebar A) :
  Forall2 (fun kf x => current_values s !! kf.1 = Some x)
    fallbacks (campos s).
Proof.
  unfold fallbacks, campos.
  repeat apply Forall2_cons_2; try apply Forall2_nil_2;
    vm_compute; exact eq_refl.
Qed.

Lemma current_values_dom (s : sidebar A) :
  dom (current_values s) = dom default_values.
Proof.
  unfold current_values, default_values.
  rewrite !dom_list_to_map_L. reflexivity.
Qed.

Lemma saved_then_loaded (s : sidebar A) :
  load_sidebar_config (Objeto (PyNum_ <$> current_values s))
  = PyNum_ <$> current_values s.
Proof.
  cbn [load_sidebar_config]. apply map_eq. intros k.
  rewrite lookup_union.
  destruct ((PyNum_ <$> current_values s) !! k) as [x|] eqn:Hk.
  - destruct (default_values !! k); reflexivity.
  - rewrite lookup_fmap in Hk.
    destruct (current_values s !! k) as [y|] eqn:Hc; [discriminate|].
    apply not_elem_of_dom in Hc. rewrite current_values_dom in Hc.
    apply not_elem_of_dom in Hc. rewrite Hc. reflexivity.
Qed.

Lemma dict_eqb_refl (d : gmap string A) :
  map_Forall (fun _ x => feqb x x = true) d -> dict_eqb d d = true.
Proof.
  intros Hd. unfold dict_eqb. rewrite bool_decide_eq_true_2 by reflexivity.
  cbn [andb]. apply forallb_forall. intros [k x] Hin.
  apply list_elem_of_In, elem_of_map_to_list in Hin. cbn [fst snd].
  rewrite Hin. exact (Hd k x Hin).
Qed.

Lemma dict_eqb_differ (d1 d2 : gmap string A) (k : string) (x y : A) :
  d1 !! k = Some x -> d2 !! k = Some y -> feqb x y = false ->
  dict_eqb d1 d2 = false.
Proof.
  intros H1 H2 Hxy. unfold dict_eqb.
  destruct (forallb _ (map_to_list d1)) eqn:Hall;
    [|apply andb_false_r].
  rewrite forallb_forall in Hall.
  specialize (Hall (k, x)). cbn [fst snd] in Hall. rewrite H2, Hxy in Hall.
  discriminate Hall. apply list_elem_of_In, elem_of_map_to_list. exact H1.
Qed.

(** No scalar of the sidebar is NaN. *)
Definition sem_nan (s : sidebar A) : Prop :=
  Forall (fun x => feqb x x = true) (campos s).

Lemma sem_nan_current_values (s : sidebar A) :
  sem_nan s -> map_Forall (fun _ x => feqb x x = true) (current_values s).
Proof.
  intros Hs k x Hk.
  assert (Hin : k ∈ dom (current_values s)) by (apply elem_of_dom; eauto).
  pose proof (current_values_lookup s) as Hl.
  unfold sem_nan in Hs.
  assert (Hall : Forall2 (fun (kf : string * A) y =>
            current_values s !! kf.1 = Some y /\ feqb y y = true)
            fallbacks (campos s)).
  { clear Hin Hk. revert Hs Hl. generalize (campos s), fallbacks.
    intros l l' Hs Hl. induction Hl as [|kf y l' l Hy Hl IH];
      [constructor|].
    apply Forall_cons_1 in Hs as [Hyy Hs]. constructor; auto. }
  assert (Hkeys : dom (current_values s) = list_to_set (fallbacks.*1)).
  { unfold current_values. rewrite dom_list_to_map_L. reflexivity. }
  rewrite Hkeys in Hin. apply elem_of_list_to_set in Hin.
  apply list_elem_of_fmap in Hin as ([k' fb] & -> & Hin). cbn [fst] in *.
  clear Hkeys Hl Hs.
  induction Hall as [|kf y l l' [Hy Hyy] Hall IH];
    [apply elem_of_nil in Hin; contradiction|].
  apply elem_of_cons in Hin as [Heq | Hin]; [|exact (IH Hin)].
  subst kf. cbn [fst] in Hy. congruence.
Qed.

(** X12: what the script saves is what the next session loads.  After
    a run whose write goes through, in a session that had saved
    nothing yet or whose last saved values differ in some parameter,
    [load_sidebar_config] returns exactly the 26 values of the
    sidebar: no default replaces a saved value.  A run with the values
    of the run before, none of them NaN, leaves the session and the
    file as they are, also when the write of the run before failed:
    a failed save is not tried again until a value changes. *)
Theorem saved_values_are_loaded (s : sidebar A) (st : sessao) :
  (match last_saved_values st with
   | None => True
   | Some l => exists k x y,
       l !! k = Some x /\ current_values s !! k = Some y
       /\ feqb x y = false
   end ->
   let st' := salva_se_mudou s Escreve st in
   last_saved_values st' = Some (current_values s)
   /\ load_sidebar_config (sidebar_config st')
      = PyNum_ <$> current_values s)
  /\ (sem_nan s ->
      forall e e' : escrita,
        salva_se_mudou s e' (salva_se_mudou s e st) = salva_se_mudou s e st).
Proof.
  split.
  - intros Hnew st'. subst st'. unfold salva_se_mudou.
    destruct (last_saved_values st) as [l|].
    + destruct Hnew as (k & x & y & Hl & Hc & Hxy).
      rewrite (dict_eqb_differ _ _ _ _ _ Hl Hc Hxy). cbn [negb].
      cbn [last_saved_values sidebar_config save_sidebar_config].
      split; [reflexivity|apply saved_then_loaded].
    + cbn [last_saved_values sidebar_config save_sidebar_config].
      split; [reflexivity|apply saved_then_loaded].
  - intros Hs e e'. apply sem_nan_current_values in Hs.
    assert (Hlast : forall st1,
              last_saved_values st1 = Some (current_values s) ->
              salva_se_mudou s e' st1 = st1).
    { intros st1 H1. unfold salva_se_mudou. rewrite H1.
      rewrite (dict_eqb_refl _ Hs). reflexivity. }
    assert (Hcases : last_saved_values (salva_se_mudou s e st)
                     = Some (current_values s)
                     \/ (salva_se_mudou s e st = st
                         /\ exists l, last_saved_values st = Some l
                              /\ dict_eqb l (current_values s) = true)).
    { unfold salva_se_mudou.
      destruct (last_saved_values st) as [l|] eqn:Hl; [|left; reflexivity].
      destruct (dict_eqb l (current_values s)) eqn:Hd; cbn [negb].
      - right. split; [reflexivity|]. exists l. split; [reflexivity|exact Hd].
      - left. reflexivity. }
    destruct Hcases as [Hsome | [Heq (l & Hl & Hd)]].
    + apply Hlast, Hsome.
    + rewrite Heq. unfold salva_se_mudou. rewrite Hl, Hd. reflexivity.
Qed.

End Config.

Lemma sem_nan_default : sem_nan sidebar_default.
Proof. repeat constructor. Qed.

Lemma saved_values_are_loaded_witness :
  let st := mkSessao None Ausente in
  load_sidebar_config
    (sidebar_config (salva_se_mudou sidebar_default Escreve st))
  = PyNum_ <$> current_values sidebar_default
  /\ salva_se_mudou sidebar_default Escreve
       (salva_se_mudou sidebar_default Falha_ao_abrir st)
     = salva_se_mudou sidebar_default Falha_ao_abrir st.
Proof.
  split.
  - exact (proj2 (proj1 (saved_values_are_loaded sidebar_default
                           (mkSessao None Ausente)) I)).
  - exact (proj2 (saved_values_are_loaded sidebar_default
                    (mkSessao None Ausente))
             sem_nan_default Falha_ao_abrir Escreve).
Defined.

End Script.

(** * The ranking of the dashboard *)

(** ** The order of scalars *)

(** What the ranking uses of [<] and [==]: [<] is asymmetric, "not
    less than" is transitive through a value that equals itself (any
    real number; any float but NaN), and of two values that equal a
    third none is less than the other. *)
Class PyOrderLaws (A : Type) `{PyNum A} : Prop := {
  flt_asym : forall x y : A, fltb x y = true -> fltb y x = false;
  flt_negtrans : forall x y z : A,
    feqb y y = true -> fltb x y = false -> fltb y z = false ->
    fltb x z = false;
  flt_feq : forall x y v : A,
    feqb x v = true -> feqb y v = true -> fltb x y = false;
}.

#[export] Instance real_order : PyOrderLaws R.
Proof.
  split; cbn [fltb feqb real_num]; unfold Rltb, Reqb.
  - intros x y. destruct (Rlt_dec x y), (Rlt_dec y x); try reflexivity;
      try discriminate. lra.
  - intros x y z _.
    destruct (Rlt_dec x y), (Rlt_dec y z), (Rlt_dec x z); try reflexivity;
      try discriminate. lra.
  - intros x y v.
    destruct (Req_dec_T x v), (Req_dec_T y v), (Rlt_dec x y);
      try reflexivity; try discriminate. lra.
Qed.

(** A key on which [SFcompare] is the lexicographic order of integers:
    the class of the value, then exponent and mantissa with the sign
    of the value. *)
Definition order_key (f : spec_float) : Z * Z * Z :=
  match f with
  | S754_nan => (0, 0, 0)
  | S754_zero _ => (0, 0, 0)
  | S754_infinity true => (-2, 0, 0)
  | S754_infinity false => (2, 0, 0)
  | S754_finite true m e => (-1, - e, Z.neg m)
  | S754_finite false m e => (1, e, Z.pos m)
  end%Z.

Definition key_lt (k1 k2 : Z * Z * Z) : Prop :=
  let '(a1, b1, c1) := k1 in
  let '(a2, b2, c2) := k2 in
  (a1 < a2 \/ (a1 = a2 /\ (b1 < b2 \/ (b1 = b2 /\ c1 < c2))))%Z.

Definition is_nan (f : spec_float) : bool :=
  match f with S754_nan => true | _ => false end.

Lemma SFltb_key (f1 f2 : spec_float) :
  SFltb f1 f2 = true
  <-> is_nan f1 = false /\ is_nan f2 = false
      /\ key_lt (order_key f1) (order_key f2).
Proof.
  unfold SFltb, SFcompare.
  destruct f1 as [[]|[]| |[] m1 e1], f2 as [[]|[]| |[] m2 e2];
    cbn [order_key key_lt is_nan];
    try (split; [discriminate | intros (? & ? & ?); (discriminate || lia)]);
    try (split; [intros _; repeat split; lia | reflexivity]);
    rewrite <- ?Pos.compare_cont_spec; fold (Pos.compare m1 m2);
    destruct (Z.compare_spec e1 e2), (Pos.compare_spec m1 m2);
    cbn [CompOpp];
    (split; [ try discriminate; intros _; repeat split; lia
            | try reflexivity; intros (_ & _ & ?); lia ]).
Qed.

Lemma SFeqb_refl_not_nan (f : spec_float) :
  SFeqb f f = true -> is_nan f = false.
Proof. destruct f; [reflexivity..|discriminate|reflexivity]. Qed.

Lemma SFeqb_key (f1 f2 : spec_float) :
  SFeqb f1 f2 = true ->
  is_nan f1 = false /\ is_nan f2 = false /\ order_key f1 = order_key f2.
Proof.
  unfold SFeqb, SFcompare.
  destruct f1 as [[]|[]| |[] m1 e1], f2 as [[]|[]| |[] m2 e2];
    cbn [order_key is_nan]; try discriminate;
    try (intros _; repeat split; reflexivity);
    rewrite <- ?Pos.compare_cont_spec; fold (Pos.compare m1 m2);
    destruct (Z.compare_spec e1 e2), (Pos.compare_spec m1 m2);
    cbn [CompOpp]; try discriminate; intros _; subst; repeat split.
Qed.

#[export] Instance float_order : PyOrderLaws float.
Proof.
  split; cbn [fltb feqb float_num].
  - intros x y. rewrite !FloatAxioms.ltb_spec.
    intros (Hx & Hy & Hlt)%SFltb_key.
    destruct (SFltb (Prim2SF y) (Prim2SF x)) eqn:Hyx; [|reflexivity].
    apply SFltb_key in Hyx as (_ & _ & Hgt).
    destruct (order_key (Prim2SF x)) as [[? ?] ?],
      (order_key (Prim2SF y)) as [[? ?] ?]. cbn in *. lia.
  - intros x y z. rewrite FloatAxioms.eqb_spec, !FloatAxioms.ltb_spec.
    intros Hy%SFeqb_refl_not_nan Hxy Hyz.
    destruct (SFltb (Prim2SF x) (Prim2SF z)) eqn:Hxz; [|reflexivity].
    apply SFltb_key in Hxz as (Hx & Hz & Hlt).
    assert (Hn1 : ~ key_lt (order_key (Prim2SF x)) (order_key (Prim2SF y))).
    { intros Hk. rewrite (proj2 (SFltb_key _ _)) in Hxy by auto. discriminate. }
    assert (Hn2 : ~ key_lt (order_key (Prim2SF y)) (order_key (Prim2SF z))).
    { intros Hk. rewrite (proj2 (SFltb_key _ _)) in Hyz by auto. discriminate. }
    destruct (order_key (Prim2SF x)) as [[? ?] ?],
      (order_key (Prim2SF y)) as [[? ?] ?],
      (order_key (Prim2SF z)) as [[? ?] ?]. cbn in *. lia.
  - intros x y v. rewrite !FloatAxioms.eqb_spec, FloatAxioms.ltb_spec.
    intros (_ & _ & Hxv)%SFeqb_key (_ & _ & Hyv)%SFeqb_key.
    destruct (SFltb (Prim2SF x) (Prim2SF y)) eqn:Hxy; [|reflexivity].
    apply SFltb_key in Hxy as (_ & _ & Hlt).
    rewrite Hxv, Hyv in Hlt.
    destruct (order_key (Prim2SF v)) as [[? ?] ?]. cbn in *. lia.
Qed.

(** ** Ranking *)

Section Ranking.
Context {A : Type} `{PyNum A}.

(** [sorted(l, key=lambda x: x[1], reverse=True)] on pairs of a
    product and a scalar.  Python's sort is stable and compares with
    [<] only; on keys that [<] orders totally a stable sort has one
    possible result, computed here by insertion from the right. *)
Fixpoint insert_desc (x : string * A) (l : list (string * A))
  : list (string * A) :=
  match l with
  | [] => [x]
  | y :: l' => if fltb x.2 y.2 then y :: insert_desc x l' else x :: y :: l'
  end.

Definition sorted_desc (l : list (string * A)) : list (string * A) :=
  foldr insert_desc [] l.

(** [vhp_saca_list_sorted[:3]] *)
Definition top3 (l : list (string * A)) : list (string * A) :=
  take 3 (sorted_desc l).

(** [vhp_saca_list[0][1]] after the sort, for a list that is not
    empty. *)
Definition max_valor (l : list (string * A)) : option A :=
  snd <$> head (sorted_desc l).

(** An earlier entry is not less than a later one. *)
Definition not_below (x y : string * A) : Prop := fltb x.2 y.2 = false.

Lemma insert_desc_perm (x : string * A) (l : list (string * A)) :
  insert_desc x l ≡ₚ x :: l.
Proof.
  induction l as [|y l IH]; cbn [insert_desc]; [reflexivity|].
  destruct (fltb x.2 y.2); [|reflexivity].
  rewrite IH. apply Permutation_swap.
Qed.

Lemma sorted_desc_perm (l : list (string * A)) : sorted_desc l ≡ₚ l.
Proof.
  induction l as [|x l IH]; cbn [sorted_desc foldr]; [reflexivity|].
  rewrite insert_desc_perm. fold (sorted_desc l). rewrite IH. reflexivity.
Qed.

Context `{!PyOrderLaws A}.

(** Every value of the list equals itself (no NaN). *)
Definition comparable (l : list (string * A)) : Prop :=
  Forall (fun x => feqb x.2 x.2 = true) l.

Lemma insert_desc_sorted (x : string * A) (l : list (string * A)) :
  comparable l ->
  StronglySorted not_below l -> StronglySorted not_below (insert_desc x l).
Proof.
  intros Hcmp Hs. induction Hs as [|y l Hs IH Hy]; cbn [insert_desc].
  - repeat constructor.
  - apply Forall_cons_1 in Hcmp as [Hyy Hcmp].
    destruct (fltb x.2 y.2) eqn:Hxy.
    + constructor; [apply IH, Hcmp|].
      rewrite insert_desc_perm. constructor; [|exact Hy].
      apply flt_asym, Hxy.
    + constructor; [constructor; assumption|].
      constructor; [exact Hxy|].
      eapply Forall_impl; [exact Hy|]. intros z Hyz.
      exact (flt_negtrans _ _ _ Hyy Hxy Hyz).
Qed.

Lemma sorted_desc_sorted (l : list (string * A)) :
  comparable l -> StronglySorted not_below (sorted_desc l).
Proof.
  intros Hcmp. induction l as [|x l IH]; cbn [sorted_desc foldr].
  - constructor.
  - apply Forall_cons_1 in Hcmp as [_ Hcmp].
    apply insert_desc_sorted; [|apply IH, Hcmp].
    unfold comparable. fold (sorted_desc l). rewrite sorted_desc_perm. exact Hcmp.
Qed.






Lemma sorted_app_not_below (l1 l2 : list (string * A)) :
  StronglySorted not_below (l1 ++ l2) ->
  forall x y, x ∈ l1 -> y ∈ l2 -> not_below x y.
Proof.
  induction l1 as [|z l1 IH]; intros Hs x y Hx Hy.
  - apply elem_of_nil in Hx. contradiction.
  - cbn [app] in Hs. apply StronglySorted_inv in Hs as [Hs Hz].
    apply elem_of_cons in Hx as [-> | Hx].
    + rewrite Forall_forall in Hz. apply Hz, elem_of_app. right. exact Hy.
    + exact (IH Hs x y Hx Hy).
Qed.

(** The product named as best: the first pair, in the order of the
    dashboard, whose value [==] the maximum, unless the maximum is
    falsy (zero). *)
Definition melhor (l : list (string * A)) : option string :=
  match max_valor l with
  | Some m =>
      if feqb m (of_int 0) then None
      else fst <$> find (fun x => feqb x.2 m) l
  | None => None
  end.

(** X14: when no value is NaN, the top three of the ranking are
    [min 3 n] entries that, with the rest of the ranking, make up the
    list; no top entry is less than an entry left out; the maximum is
    the value of a pair of the list and is less than no value of the
    list; and, unless that maximum is zero, the product named as best
    is the first pair of the list that attains it. *)
Theorem top3_and_best (l : list (string * A)) :
  comparable l ->
  length (top3 l) = Nat.min 3 (length l)
  /\ (top3 l ++ drop 3 (sorted_desc l))%list ≡ₚ l
  /\ (forall x y, x ∈ top3 l -> y ∈ drop 3 (sorted_desc l) -> not_below x y)
  /\ (l <> [] ->
      exists m, max_valor l = Some m
        /\ (exists p, (p, m) ∈ l)
        /\ (forall x, x ∈ l -> fltb m x.2 = false)
        /\ (feqb m (of_int 0) = false ->
            exists l1 x l2,
              l = (l1 ++ x :: l2)%list /\ melhor l = Some x.1
              /\ feqb x.2 m = true
              /\ Forall (fun y => feqb y.2 m = false) l1)).
Proof.
  intros Hcmp.
  pose proof (sorted_desc_perm l) as Hperm.
  pose proof (sorted_desc_sorted l Hcmp) as Hsorted.
  split; [|split; [|split]].
  - unfold top3. rewrite length_take, Hperm. reflexivity.
  - unfold top3. rewrite take_drop. exact Hperm.
  - apply sorted_app_not_below. unfold top3. rewrite take_drop. exact Hsorted.
  - intros Hne. unfold melhor, max_valor.
    destruct (sorted_desc l) as [|[p m] t] eqn:Hsd.
    { apply Permutation_nil_l in Hperm. congruence. }
    cbn [head fmap option_fmap option_map snd].
    assert (Hin : (p, m) ∈ l) by (rewrite <- Hperm; apply list_elem_of_here).
    assert (Hmm : feqb m m = true).
    { unfold comparable in Hcmp. rewrite Forall_forall in Hcmp.
      exact (Hcmp _ Hin). }
    exists m. split; [reflexivity|]. split; [exists p; exact Hin|]. split.
    + intros x Hx. rewrite <- Hperm in Hx.
      apply StronglySorted_inv in Hsorted as [_ Ht].
      apply elem_of_cons in Hx as [-> | Hx].
      * cbn [snd]. destruct (fltb m m) eqn:E; [|reflexivity].
        rewrite (flt_asym _ _ E) in E. discriminate.
      * rewrite Forall_forall in Ht. exact (Ht x Hx).
    + intros Hz. rewrite Hz.
      clear Hsd Hperm Hsorted Hcmp Hne Hz t.
      induction l as [|y l IH]; [apply elem_of_nil in Hin; contradiction|].
      destruct (feqb y.2 m) eqn:Hy.
      * exists [], y, l. repeat split; try assumption.
        -- cbn [find]. rewrite Hy. reflexivity.
        -- constructor.
      * apply elem_of_cons in Hin as [Heq | Hin];
          [subst y; cbn [snd] in Hy; congruence|].
        destruct (IH Hin) as (l1 & x & l2 & -> & Hf & Hx & Hl1).
        exists (y :: l1), x, l2. repeat split; try assumption.
        -- cbn [find]. rewrite Hy. exact Hf.
        -- constructor; assumption.
Qed.

End Ranking.

Definition ranking_exemplo : list (string * float) :=
  [("Açúcar VHP", 119.5); ("Açúcar Cristal ESALQ", 123.25);
   ("Etanol Anidro MI", 119.5); ("Etanol Hidratado MI", 98.0)]%float.

Lemma ranking_exemplo_comparable : comparable ranking_exemplo.
Proof. repeat constructor. Qed.


Lemma top3_and_best_witness :
  length (top3 ranking_exemplo) = 3
  /\ melhor ranking_exemplo = Some "Açúcar Cristal ESALQ".
Proof.
  split; [|vm_compute; reflexivity].
  exact (proj1 (top3_and_best ranking_exemplo ranking_exemplo_comparable)).
Defined.

(** * Formatting numbers: [fmt_br] *)

(** [fmt_br] formats with Python's format specification [,.{casas}f]
    and then exchanges the two separators through three calls of
    [str.replace].  Strings are lists of characters here. *)

Module Fmt.
Import Stdlib.Strings.Ascii Stdlib.Numbers.DecimalString.

(** [s.replace(old, new)] for [old] and [new] of one character. *)
Definition replace (old new : ascii) (s : list ascii) : list ascii :=
  (fun c => if Ascii.eqb c old then new else c) <$> s.

(** The decimal digits of a natural number, the most significant
    first; ["0"] for zero. *)
Definition digitos (n : N) : list ascii :=
  String.list_ascii_of_string (NilEmpty.string_of_uint (N.to_uint n)).

(** Digits, the least significant first, with a separator before every
    fourth, seventh, ... digit; [k] digits are still to come before
    the next separator. *)
Fixpoint agrupa_rev (milhar : ascii) (k : nat) (l : list ascii)
  : list ascii :=
  match l with
  | [] => []
  | c :: l' =>
      match k with
      | O => milhar :: c :: agrupa_rev milhar 2 l'
      | S k' => c :: agrupa_rev milhar k' l'
      end
  end.

(** The option [,]: groups of three digits from the right. *)
Definition agrupa (milhar : ascii) (l : list ascii) : list ascii :=
  reverse (agrupa_rev milhar 3 (reverse l)).

(** The integer nearest to [m * 2^e * 10^casas], ties to even: the
    correctly rounded conversion of the presentation type [f]. *)
Definition arredonda (m : positive) (e : Z) (casas : nat) : N :=
  let num := (Z.pos m * 10 ^ Z.of_nat casas)%Z in
  if (0 <=? e)%Z then Z.to_N (num * 2 ^ e)
  else
    let den := (2 ^ (- e))%Z in
    let q := (num / den)%Z in
    let r := (num mod den)%Z in
    match (2 * r ?= den)%Z with
    | Lt => Z.to_N q
    | Gt => Z.to_N (q + 1)
    | Eq => if Z.even q then Z.to_N q else Z.to_N (q + 1)
    end.

(** [n / 10^casas] written with [casas] decimals. *)
Definition numero (milhar decimal : ascii) (n : N) (casas : nat)
  : list ascii :=
  let ds := digitos n in
  let ds := (replicate (casas + 1 - length ds) "0"%char ++ ds)%list in
  let k := (length ds - casas)%nat in
  (agrupa milhar (take k ds)
   ++ if Nat.eqb casas 0 then [] else decimal :: drop k ds)%list.

Definition sinal (s : bool) : list ascii :=
  if s then ["-"%char] else [].

(** [format(valor, ",.{casas}f")] with the two separators as
    parameters; Python's are [","] for the thousands and ["."] for the
    decimals. *)
Definition formata (milhar decimal : ascii) (valor : float) (casas : nat)
  : list ascii :=
  match Prim2SF valor with
  | S754_nan => String.list_ascii_of_string "nan"
  | S754_infinity s => (sinal s ++ String.list_ascii_of_string "inf")%list
  | S754_zero s => (sinal s ++ numero milhar decimal 0 casas)%list
  | S754_finite s m e =>
      (sinal s ++ numero milhar decimal (arredonda m e casas) casas)%list
  end.

(** [fmt_br(valor, casas)]; [None] is Python's [None]. *)
Definition fmt_br (valor : option float) (casas : nat) : list ascii :=
  match valor with
  | None => []
  | Some v =>
      replace "X" "."
        (replace "." "," (replace "," "X" (formata "," "." v casas)))
  end.

(** The three replacements as one map on characters. *)
Definition troca (c : ascii) : ascii :=
  let c := if Ascii.eqb c "," then "X"%char else c in
  let c := if Ascii.eqb c "." then ","%char else c in
  if Ascii.eqb c "X" then "."%char else c.

Definition digito (c : ascii) : Prop :=
  c ∈ String.list_ascii_of_string "0123456789".

Lemma replace_troca (s : list ascii) :
  replace "X" "." (replace "." "," (replace "," "X" s)) = troca <$> s.
Proof.
  unfold replace. rewrite <- !list_fmap_compose. reflexivity.
Qed.

Lemma troca_digito (c : ascii) : digito c -> troca c = c.
Proof.
  unfold digito. cbn [String.list_ascii_of_string].
  intros Hc.
  repeat (apply elem_of_cons in Hc as [-> | Hc]; [reflexivity|]).
  apply elem_of_nil in Hc. contradiction.
Qed.

Lemma troca_digitos (l : list ascii) :
  Forall digito l -> troca <$> l = l.
Proof.
  induction 1 as [|c l Hc Hl IH]; [reflexivity|].
  rewrite fmap_cons, IH, (troca_digito c Hc). reflexivity.
Qed.

Lemma digitos_uint (d : Decimal.uint) :
  Forall digito (String.list_ascii_of_string (NilEmpty.string_of_uint d)).
Proof.
  induction d; cbn [NilEmpty.string_of_uint String.list_ascii_of_string];
    constructor; try assumption;
    unfold digito; cbn [String.list_ascii_of_string];
    repeat first [ apply list_elem_of_here | apply list_elem_of_further ].
Qed.

Lemma digitos_digito (n : N) : Forall digito (digitos n).
Proof. apply digitos_uint. Qed.

Lemma troca_agrupa_rev (k : nat) (l : list ascii) :
  Forall digito l ->
  troca <$> agrupa_rev "," k l = agrupa_rev "." k l.
Proof.
  intros Hl. revert k.
  induction Hl as [|c l Hc Hl IH]; intros k; [reflexivity|].
  destruct k; cbn [agrupa_rev]; rewrite !fmap_cons, IH, (troca_digito c Hc);
    reflexivity.
Qed.

Lemma troca_agrupa (l : list ascii) :
  Forall digito l -> troca <$> agrupa "," l = agrupa "." l.
Proof.
  intros Hl. unfold agrupa. rewrite fmap_reverse, troca_agrupa_rev;
    [reflexivity|].
  apply Forall_reverse, Hl.
Qed.

Lemma troca_numero (n : N) (casas : nat) :
  troca <$> numero "," "." n casas = numero "." "," n casas.
Proof.
  unfold numero. cbv zeta.
  set (ds := (replicate _ _ ++ digitos n)%list).
  assert (Hds : Forall digito ds).
  { apply Forall_app. split; [|apply digitos_digito].
    apply Forall_replicate. unfold digito. cbn [String.list_ascii_of_string].
    apply list_elem_of_here. }
  rewrite fmap_app, troca_agrupa by (apply Forall_take, Hds).
  destruct (Nat.eqb casas 0); [reflexivity|].
  rewrite fmap_cons, troca_digitos by (apply Forall_drop, Hds).
  reflexivity.
Qed.

Lemma troca_not_X (c : ascii) : troca c <> "X"%char.
Proof. destruct c as [[] [] [] [] [] [] [] []]; vm_compute; discriminate. Qed.

Lemma troca_sinal (s : bool) : troca <$> sinal s = sinal s.
Proof. destruct s; reflexivity. Qed.

(** X15: [fmt_br] of a number is that number formatted with ["."]
    between groups of three digits and [","] before the decimals, for
    every binary64 value and every number of decimals: the letter
    ["X"] that the three replacements pass through never occurs in a
    formatted number, so no character is exchanged by mistake.  NaN
    and the infinities come out as ["nan"], ["inf"] and ["-inf"], and
    [None] as the empty string. *)
Theorem fmt_br_separators (valor : float) (casas : nat) :
  fmt_br (Some valor) casas = formata "." "," valor casas
  /\ ("X"%char ∉ fmt_br (Some valor) casas)
  /\ fmt_br None casas = [].
Proof.
  assert (Heq : fmt_br (Some valor) casas = formata "." "," valor casas).
  { unfold fmt_br. rewrite replace_troca. unfold formata.
    destruct (Prim2SF valor) as [s|s| |s m e]; try reflexivity.
    - rewrite fmap_app, troca_sinal, troca_numero. reflexivity.
    - destruct s; reflexivity.
    - rewrite fmap_app, troca_sinal, troca_numero. reflexivity. }
  split; [exact Heq|]. split; [|reflexivity].
  unfold fmt_br. rewrite replace_troca.
  intros Hx. apply list_elem_of_fmap in Hx as (c & Hc & _).
  exact (troca_not_X c (eq_sym Hc)).
Qed.

(** Three values as the dashboard shows them: a price with two groups
    of thousands, a tie rounded to the even digit ([0.125] is a
    binary64 value), and a negative value that rounds to zero and
    keeps its sign. *)
Lemma fmt_br_separators_witness :
  fmt_br (Some 1234567.891%float) 2
  = String.list_ascii_of_string "1.234.567,89"
  /\ fmt_br (Some 0.125%float) 2 = String.list_ascii_of_string "0,12"
  /\ fmt_br (Some (-0.001)%float) 2 = String.list_ascii_of_string "-0,00".
Proof.
  rewrite !(proj1 (fmt_br_separators _ 2)).
  repeat split; vm_compute; reflexivity.
Defined.

End Fmt.
